(** * ROI aggregator of [ROI_Calc.py]: a shallow embedding and its properties

    The one function of the program with reusable logic is
    [calculate_roi_agentiq]: it validates thirteen numbers, aggregates them
    into six metrics and returns these as formatted strings.

    Twelve of the numbers are Python floats, that is IEEE 754 binary64
    values: the form hands the function the [value] of twelve [FloatText]
    widgets.  The thirteenth, [people_removed], is the [value] of an
    [IntText] widget, a Python [int] of any size, and a caller of the
    function may as well pass a float there: the field holds either.
    Python compares an [int] with [0] exactly and converts it to binary64
    at its one arithmetic use, [people_removed * average_salary], a
    conversion that raises [OverflowError] on an [int] beyond the binary64
    range.  Floats are Rocq's primitive binary64 floats, whose operations
    [FloatAxioms] specifies against [SpecFloat]; literals such as [100] and
    [0] in the source are the floats they convert to. *)

From Stdlib Require Import ZArith NArith List String Ascii Bool Lia.
From Stdlib Require Import Floats.
From Stdlib Require DecimalString DecimalN.
Import ListNotations.

Local Open Scope string_scope.

(** Decimal literals such as [1e308] stand for the nearest binary64 value,
    as they do in Python. *)
Set Warnings "-inexact-float".

(** ** Exceptions and results *)

(** The exceptions the function body can meet: [ValueError] is raised by the
    two validation statements, [ZeroDivisionError] by [/] on a zero divisor,
    [OverflowError] by the conversion of an [int] to a float. *)
Inductive exn : Type :=
| ValueError (msg : string)
| ZeroDivisionError (msg : string)
| OverflowError (msg : string).

Inductive result (A : Type) : Type :=
| Ok (a : A)
| Raise (e : exn).

Arguments Ok {A} a.
Arguments Raise {A} e.

Definition bind {A B : Type} (r : result A) (k : A -> result B) : result B :=
  match r with
  | Ok a => k a
  | Raise e => Raise e
  end.

Notation "x <- r ;; k" := (bind r (fun x => k))
  (at level 61, r at next level, right associativity).

(** ** Python's numbers and operators *)

(** A number as the function can receive it: an [int], of any size, or a
    [float]. *)
Inductive number : Type :=
| Int (z : Z)
| Float (x : float).

Module Py.

(** [x < y], [x != y]: IEEE comparisons; every comparison with NaN but [!=]
    is false. *)
Definition lt (x y : float) : bool := (x <? y)%float.
Definition ne (x y : float) : bool := negb (x =? y)%float.

Definition add (x y : float) : float := (x + y)%float.
Definition sub (x y : float) : float := (x - y)%float.
Definition mul (x y : float) : float := (x * y)%float.

(** [x / y]: [float_div] raises on a zero divisor (of either sign) and
    otherwise divides, overflow giving an infinity. *)
Definition truediv (x y : float) : result float :=
  if (y =? 0)%float then Raise (ZeroDivisionError "float division by zero")
  else Ok (x / y)%float.

(** [any(p(x) for x in l)] *)
Definition any {A : Type} (p : A -> bool) (l : list A) : bool := existsb p l.

(** The float an [int] converts to where it meets a float in arithmetic:
    the nearest binary64 value, ties to even; an [int] that rounds beyond
    the largest float is refused. *)
Definition int_as_float (z : Z) : result float :=
  match binary_normalize prec emax z 0 false with
  | S754_infinity _ => Raise (OverflowError "int too large to convert to float")
  | x => Ok (SF2Prim x)
  end.

Definition as_float (n : number) : result float :=
  match n with
  | Int z => int_as_float z
  | Float x => Ok x
  end.

(** [n < 0]: exact on an [int], IEEE on a float. *)
Definition lt_zero (n : number) : bool :=
  match n with
  | Int z => (z <? 0)%Z
  | Float x => lt x 0
  end.

(** [n * y] for a float [y]: an [int] on the left is converted first. *)
Definition mul_number (n : number) (y : float) : result float :=
  x <- as_float n ;; Ok (mul x y).

End Py.

(** ** The formatting [f"{x:,.2f}"] *)

Module Format.

(** The decimal digits of a natural number, most significant first; ["0"]
    for zero. *)
Definition digits (n : N) : list ascii :=
  list_ascii_of_string (DecimalString.NilZero.string_of_uint (N.to_uint n)).

(** A comma before every group of three digits counted from the right; the
    argument is the digit list reversed. *)
Fixpoint group_rev (l : list ascii) : list ascii :=
  match l with
  | a :: b :: c :: ((_ :: _) as rest) => a :: b :: c :: ","%char :: group_rev rest
  | _ => l
  end.

Definition group (l : list ascii) : list ascii := rev (group_rev (rev l)).

(** Round-half-even of [m * 2^e * 100] to an integer: the hundredths that
    the correctly rounded conversion of a binary64 magnitude prints. *)
Definition hundredths (m : positive) (e : Z) : N :=
  match e with
  | Zneg p =>
      let n := (100 * Npos m)%N in
      let d := Npos (Pos.shiftl 1 (Npos p)) in
      let q := (n / d)%N in
      let r := (n mod d)%N in
      match (2 * r ?= d)%N with
      | Lt => q
      | Eq => if N.even q then q else N.succ q
      | Gt => N.succ q
      end
  | _ => (100 * Npos m * 2 ^ Z.to_N e)%N
  end.

Definition digit_char (d : N) : ascii := ascii_of_N (48 + d).

(** The two fraction digits, with a leading zero below ten. *)
Definition two_digits (n : N) : list ascii :=
  [digit_char (n / 10); digit_char (n mod 10)].

(** The unsigned text of a number of hundredths: grouped integer part, a
    point, two fraction digits. *)
Definition fixed2 (h : N) : string :=
  string_of_list_ascii
    (group (digits (h / 100)) ++ "."%char :: two_digits (h mod 100)).

Definition sign (s : bool) : string := if s then "-" else "".

(** [f"{x:,.2f}"] for a float [x]. *)
Definition comma_2f (x : float) : string :=
  match Prim2SF x with
  | S754_nan => "nan"
  | S754_infinity s => sign s ++ "inf"
  | S754_zero s => sign s ++ "0.00"
  | S754_finite s m e => sign s ++ fixed2 (hundredths m e)
  end.

(** *** What a formatted amount looks like *)

Definition is_digit (c : ascii) : bool :=
  (48 <=? N_of_ascii c)%N && (N_of_ascii c <=? 57)%N.

(** The integer part read from its last character: groups of exactly three
    digits, each followed by a comma, then a first group of one to three. *)
Fixpoint grouped_rev (l : list ascii) : bool :=
  match l with
  | [] => false
  | [a] => is_digit a
  | [a; b] => is_digit a && is_digit b
  | [a; b; c] => is_digit a && is_digit b && is_digit c
  | a :: b :: c :: sep :: rest =>
      is_digit a && is_digit b && is_digit c && Ascii.eqb sep ","
      && grouped_rev rest
  end.

Definition unsigned_decimal (l : list ascii) : bool :=
  match rev l with
  | d2 :: d1 :: p :: ip =>
      is_digit d2 && is_digit d1 && Ascii.eqb p "." && grouped_rev ip
  | _ => false
  end.

(** A decimal with thousands separators and exactly two fraction digits,
    with an optional minus sign: ["-1,234,567.89"]. *)
Definition grouped_decimal (s : string) : bool :=
  match list_ascii_of_string s with
  | c :: l => unsigned_decimal (c :: l) || (Ascii.eqb c "-" && unsigned_decimal l)
  | [] => false
  end.

Definition percent_suffix (s : string) : bool :=
  match rev (list_ascii_of_string s) with
  | c :: _ => Ascii.eqb c "%"
  | [] => false
  end.

(** A zero or a finite non-zero number: neither an infinity nor a NaN. *)
Definition is_finite (x : float) : bool :=
  match Prim2SF x with
  | S754_zero _ | S754_finite _ _ _ => true
  | S754_infinity _ | S754_nan => false
  end.

End Format.

(** ** The data model *)

(** The thirteen parameters of [calculate_roi_agentiq], under their names:
    twelve floats, and [people_removed], which the form reads from an
    [IntText] and which may be an [int] or a float. *)
Record InputRecord : Type := {
  revenue_increase : float;
  cost_savings : float;
  productivity_gains : float;
  development_costs : float;
  maintenance_costs : float;
  training_costs : float;
  licensing_costs : float;
  cloud_costs : float;
  support_ops_costs : float;
  people_removed : number;
  average_salary : float;
  time_saved_hours : float;
  hourly_rate : float
}.

(** The local variables of the function body once line 76 has run: the raw
    numbers, before any formatting. *)
Record Metrics : Type := {
  time_saved_value : float;
  people_cost_reduction : float;
  total_benefits : float;
  total_costs : float;
  net_benefits : float;
  roi : float
}.

(** The returned dict: its six keys in insertion order, each with its
    formatted string. *)
Definition OutputRecord : Type := list (string * string).

Definition get (k : string) (d : OutputRecord) : option string :=
  option_map snd (find (fun kv => String.eqb (fst kv) k) d).

(** ** The function *)

(** The list the first validation statement ranges over (lines 57 to 60):
    every parameter but [people_removed]. *)
Definition checked_params (i : InputRecord) : list float :=
  [ revenue_increase i; cost_savings i; productivity_gains i;
    development_costs i; maintenance_costs i; training_costs i;
    licensing_costs i; cloud_costs i; support_ops_costs i;
    average_salary i; time_saved_hours i; hourly_rate i ].

(** Lines 56 to 63: the two validation statements. *)
Definition validate (i : InputRecord) : result unit :=
  if Py.any (fun param => Py.lt param 0) (checked_params i)
  then Raise (ValueError "Inputs must be non-negative values.")
  else if Py.lt_zero (people_removed i)
  then Raise (ValueError "Number of people removed cannot be negative.")
  else Ok tt.

(** Line 76: [(net_benefits / total_costs) * 100 if total_costs != 0 else 0].
    The division is evaluated in the first branch only.  The [0] of the
    second branch is the integer zero, which every later use (the one
    formatting) treats as the float [0.0]. *)
Definition roi_percent (net_benefits total_costs : float) : result float :=
  if Py.ne total_costs 0
  then q <- Py.truediv net_benefits total_costs ;; Ok (Py.mul q 100)
  else Ok 0%float.

(** Lines 56 to 76: validation, then the arithmetic. *)
Definition roi_metrics (i : InputRecord) : result Metrics :=
  _ <- validate i ;;
  let time_saved_value := Py.mul (time_saved_hours i) (hourly_rate i) in
  people_cost_reduction <-
    Py.mul_number (people_removed i) (average_salary i) ;;
  let total_benefits :=
    Py.add (Py.add (Py.add (Py.add (revenue_increase i) (cost_savings i))
                           (productivity_gains i))
                   time_saved_value)
           people_cost_reduction in
  let total_costs :=
    Py.add (Py.add (Py.add (Py.add (Py.add (development_costs i)
                                           (maintenance_costs i))
                                   (training_costs i))
                           (licensing_costs i))
                   (cloud_costs i))
           (support_ops_costs i) in
  let net_benefits := Py.sub total_benefits total_costs in
  roi <- roi_percent net_benefits total_costs ;;
  Ok {| time_saved_value := time_saved_value;
        people_cost_reduction := people_cost_reduction;
        total_benefits := total_benefits;
        total_costs := total_costs;
        net_benefits := net_benefits;
        roi := roi |}.

(** Lines 78 to 85: the returned dict. *)
Definition format_metrics (m : Metrics) : OutputRecord :=
  [ ("Total Benefits", Format.comma_2f (total_benefits m));
    ("Total Costs", Format.comma_2f (total_costs m));
    ("Net Benefits", Format.comma_2f (net_benefits m));
    ("ROI (%)", Format.comma_2f (roi m));
    ("People Cost Reduction", Format.comma_2f (people_cost_reduction m));
    ("Time Saved Value", Format.comma_2f (time_saved_value m)) ].

(** [calculate_roi_agentiq], lines 32 to 85. *)
Definition calculate_roi_agentiq (i : InputRecord) : result OutputRecord :=
  m <- roi_metrics i ;; Ok (format_metrics m).

(** ** Inputs by their sign *)

(** The thirteen fields, in the order of the parameter list. *)
Definition fields (i : InputRecord) : list number :=
  [ Float (revenue_increase i); Float (cost_savings i);
    Float (productivity_gains i); Float (development_costs i);
    Float (maintenance_costs i); Float (training_costs i);
    Float (licensing_costs i); Float (cloud_costs i);
    Float (support_ops_costs i); people_removed i;
    Float (average_salary i); Float (time_saved_hours i);
    Float (hourly_rate i) ].

(** [x < 0], the test of the validation. *)
Definition negative (x : float) : bool := Py.lt x 0.

(** [0 <= x]: a NaN is neither negative nor non-negative, and [-0.0] is
    non-negative. *)
Definition non_negative (x : float) : bool := (0 <=? x)%float.

(** The same two on a field that may hold an [int]. *)
Definition negative_number (n : number) : bool := Py.lt_zero n.

Definition non_negative_number (n : number) : bool :=
  match n with
  | Int z => (0 <=? z)%Z
  | Float x => non_negative x
  end.

Definition non_negative_input (i : InputRecord) : Prop :=
  forall n, In n (fields i) -> non_negative_number n = true.

(** The numbers within the range of binary64: every float, and the [int]s
    of a magnitude below [2^1024 - 2^970], which is halfway between the
    largest float and [2^1024]. *)
Definition in_float_range (n : number) : bool :=
  match n with
  | Int z => (Z.abs z <? 2 ^ 1024 - 2 ^ 970)%Z
  | Float _ => true
  end.

(** The six raw metrics, in the order of the keys of the returned dict. *)
Definition metric_values (m : Metrics) : list float :=
  [ total_benefits m; total_costs m; net_benefits m; roi m;
    people_cost_reduction m; time_saved_value m ].

(** ** Inputs used below *)

(** Scenario B of the specification, which is also the form's defaults. *)
Definition scenario_B : InputRecord :=
  {| revenue_increase := 100000; cost_savings := 50000;
     productivity_gains := 30000; development_costs := 80000;
     maintenance_costs := 20000; training_costs := 10000;
     licensing_costs := 15000; cloud_costs := 20000;
     support_ops_costs := 10000; people_removed := Int 5;
     average_salary := 60000; time_saved_hours := 2000;
     hourly_rate := 50 |}.

(** Scenario A: every field zero. *)
Definition scenario_A : InputRecord :=
  {| revenue_increase := 0; cost_savings := 0; productivity_gains := 0;
     development_costs := 0; maintenance_costs := 0; training_costs := 0;
     licensing_costs := 0; cloud_costs := 0; support_ops_costs := 0;
     people_removed := Int 0; average_salary := 0; time_saved_hours := 0;
     hourly_rate := 0 |}.

Definition with_people_removed (x : number) (i : InputRecord) : InputRecord :=
  {| revenue_increase := revenue_increase i; cost_savings := cost_savings i;
     productivity_gains := productivity_gains i;
     development_costs := development_costs i;
     maintenance_costs := maintenance_costs i;
     training_costs := training_costs i;
     licensing_costs := licensing_costs i; cloud_costs := cloud_costs i;
     support_ops_costs := support_ops_costs i; people_removed := x;
     average_salary := average_salary i;
     time_saved_hours := time_saved_hours i; hourly_rate := hourly_rate i |}.

Definition with_hourly_rate (x : float) (i : InputRecord) : InputRecord :=
  {| revenue_increase := revenue_increase i; cost_savings := cost_savings i;
     productivity_gains := productivity_gains i;
     development_costs := development_costs i;
     maintenance_costs := maintenance_costs i;
     training_costs := training_costs i;
     licensing_costs := licensing_costs i; cloud_costs := cloud_costs i;
     support_ops_costs := support_ops_costs i;
     people_removed := people_removed i;
     average_salary := average_salary i;
     time_saved_hours := time_saved_hours i; hourly_rate := x |}.

(** Two benefits whose sum overflows binary64. *)
Definition overflowing_benefits : InputRecord :=
  {| revenue_increase := 1e308; cost_savings := 1e308;
     productivity_gains := 0; development_costs := 80000;
     maintenance_costs := 0; training_costs := 0; licensing_costs := 0;
     cloud_costs := 0; support_ops_costs := 0; people_removed := Int 0;
     average_salary := 0; time_saved_hours := 0; hourly_rate := 0 |}.

(** Benefits and costs that both overflow. *)
Definition overflowing_both : InputRecord :=
  {| revenue_increase := 1e308; cost_savings := 1e308;
     productivity_gains := 0; development_costs := 1e308;
     maintenance_costs := 1e308; training_costs := 0; licensing_costs := 0;
     cloud_costs := 0; support_ops_costs := 0; people_removed := Int 0;
     average_salary := 0; time_saved_hours := 0; hourly_rate := 0 |}.

(** Costs without any benefit. *)
Definition costs_only : InputRecord :=
  {| revenue_increase := 0; cost_savings := 0; productivity_gains := 0;
     development_costs := 80000; maintenance_costs := 20000;
     training_costs := 0; licensing_costs := 0; cloud_costs := 0;
     support_ops_costs := 0; people_removed := Int 0; average_salary := 0;
     time_saved_hours := 0; hourly_rate := 0 |}.

(** One dollar of benefit against costs of [1e17]: the dollar is below half
    the spacing of floats near [1e17]. *)
Definition absorbed_benefit : InputRecord :=
  {| revenue_increase := 1; cost_savings := 0; productivity_gains := 0;
     development_costs := 1e17; maintenance_costs := 0; training_costs := 0;
     licensing_costs := 0; cloud_costs := 0; support_ops_costs := 0;
     people_removed := Int 0; average_salary := 0; time_saved_hours := 0;
     hourly_rate := 0 |}.

(** The least [int] with 1025 bits, which no float is near enough to. *)
Definition beyond_binary64 : number := Int (2 ^ 1024).

(** ** Magnitudes of binary64 values

    What the bound on the ROI needs of [SpecFloat]'s rounding: a result is
    followed through [binary_round_aux] as a mantissa with its two lost-bit
    flags, against a representable bound [mF * 2^eF]. *)

Module Bounds.

Local Open Scope Z_scope.

(** Some bit was lost: the shifted mantissa is below the exact value. *)
Definition inexact (mrs : shr_record) : bool := shr_r mrs || shr_s mrs.

(** The exact value that [mrs] truncates is at most the integer [k]. *)
Definition below (mrs : shr_record) (k : Z) : Prop :=
  0 <= shr_m mrs /\ (if inexact mrs then shr_m mrs + 1 <= k else shr_m mrs <= k).

(** [r] has sign [s] and a magnitude of at most [mF * 2^eF]. *)
Definition le_mag (r : spec_float) (s : bool) (mF : positive) (eF : Z) : Prop :=
  r = S754_zero s \/
  exists m e, r = S754_finite s m e /\ e <= eF /\ Zpos m <= Zpos mF * 2 ^ (eF - e).

(** Not below zero: a zero of either sign, a positive number, [+inf], or a
    NaN. *)
Definition nonneg (x : spec_float) : Prop :=
  match x with
  | S754_finite true _ _ | S754_infinity true => False
  | _ => True
  end.

Definition has_sign (s : bool) (x : spec_float) : Prop :=
  match x with
  | S754_zero s' | S754_infinity s' | S754_finite s' _ _ => s' = s
  | S754_nan => True
  end.

(** [x] is not below [-(mF * 2^eF)]; a NaN passes. *)
Definition ge_opp (x : spec_float) (mF : positive) (eF : Z) : Prop :=
  match x with
  | S754_finite true m e => e <= eF /\ Zpos m <= Zpos mF * 2 ^ (eF - e)
  | S754_infinity true => False
  | _ => True
  end.

End Bounds.

(** ** Reading a formatted amount back

    The charts and the report take their numbers from the formatted strings
    of the returned dict: [float(results[key].replace(',', ''))]. *)

Module Parse.

(** [s.replace(',', '')] *)
Fixpoint remove_commas (s : string) : string :=
  match s with
  | EmptyString => EmptyString
  | String c s' =>
      if Ascii.eqb c "," then remove_commas s' else String c (remove_commas s')
  end.

(** The text before the first point, and the text after it when there is
    one. *)
Fixpoint split_point (s : string) : string * option string :=
  match s with
  | EmptyString => (EmptyString, None)
  | String c s' =>
      if Ascii.eqb c "." then (EmptyString, Some s')
      else let '(a, b) := split_point s' in (String c a, b)
  end.

Definition pow10 (k : nat) : positive := Nat.iter k (Pos.mul 10) 1%positive.

(** The binary64 value nearest to [n / d], ties to even: [SpecFloat]'s
    division, which rounds the exact quotient of two integer mantissas. *)
Definition ratio (neg : bool) (n : N) (d : positive) : spec_float :=
  match n with
  | N0 => S754_zero neg
  | Npos p => SF64div (S754_finite neg p 0) (S754_finite false d 0)
  end.

(** The number a text of decimal digits writes; [0] for the empty text. *)
Definition digits_value (s : string) : option N :=
  option_map N.of_uint (DecimalString.NilEmpty.uint_of_string s).

(** An unsigned text: ["inf"], ["infinity"], ["nan"], or digits with at
    most one point among them and at least one digit; [i.f] is worth
    [(i * 10^k + f) / 10^k] for [k] digits after the point. *)
Definition magnitude (neg : bool) (s : string) : option spec_float :=
  if String.eqb s "inf" || String.eqb s "infinity" then Some (S754_infinity neg)
  else if String.eqb s "nan" then Some S754_nan
  else
    let '(ip, fp) := split_point s in
    let fp := match fp with Some f => f | None => EmptyString end in
    match ip ++ fp with
    | EmptyString => None
    | _ =>
        match digits_value ip, digits_value fp with
        | Some i, Some f =>
            let d := pow10 (String.length fp) in
            Some (ratio neg (i * Npos d + f) d)
        | _, _ => None
        end
    end.

(** [float(s)] on plain decimal notation: an optional sign, then a
    magnitude.  [None] stands for Python's [ValueError], and also for the
    notations of [float] left out here (exponents, underscores, blanks
    around the number, capitals), none of which [f"{x:,.2f}"] produces. *)
Definition float_of_str (s : string) : option float :=
  match s with
  | String c s' =>
      if Ascii.eqb c "-" then option_map SF2Prim (magnitude true s')
      else if Ascii.eqb c "+" then option_map SF2Prim (magnitude false s')
      else option_map SF2Prim (magnitude false s)
  | EmptyString => None
  end.

Definition not_comma (c : ascii) : bool := negb (Ascii.eqb c ",").

(** [x] is a whole number of quarters: [4 * x] is an integer.  Every whole
    amount is one. *)
Definition whole_quarters (x : float) : bool :=
  match Prim2SF x with
  | S754_finite _ m (Zneg p) => ((4 * Npos m) mod 2 ^ Npos p =? 0)%N
  | _ => true
  end.

(** What reading back the formatting of [x] gives: [x] rounded to whole
    hundredths, and these to the nearest float. *)
Definition reread (x : float) : float :=
  match Prim2SF x with
  | S754_finite s m e => SF2Prim (ratio s (Format.hundredths m e) 100)
  | _ => x
  end.

(** Half a hundredth as binary64 holds it: the float of the literal
    [0.005], a little above the decimal. *)
Definition half_hundredth : spec_float :=
  S754_finite false 5764607523034235 (-60).

End Parse.

(** ** The notebook around the function

    [generate_graphs], [generate_summary] and the button handler, as what
    they compute, show and write, in the order of the source.  A figure is
    kept as its kind, title, abscissas and ordinates at [plt.show()]; its
    styling (size, colour, axis labels, grid) is left out, and so is the
    text of the static HTML paragraphs, which are named. *)

Module Notebook.

(** What a statement of these functions can raise: the exceptions of the
    aggregator and of [float], and the [KeyError] of [results[key]]. *)
Inductive raised : Type :=
| Core (e : exn)
| KeyError (key : string).

Inductive outcome (A : Type) : Type :=
| Done (a : A)
| Raised (e : raised).

Arguments Done {A} a.
Arguments Raised {A} e.

Inductive chart_kind : Type := Bar | Line.

Inductive abscissas : Type :=
| Categories (l : list string)
| Numbers (l : list Z).

Record chart : Type := {
  kind : chart_kind;
  title : string;
  xs : abscissas;
  ys : list float
}.

(** The table of the summary report, in the order of its rows, its ROI
    status and its time stamp. *)
Record report : Type := {
  report_total_benefits : string;
  report_total_costs : string;
  report_net_benefits : string;
  report_roi : string;
  report_roi_status : string;
  report_people_cost_reduction : string;
  report_time_saved_value : string;
  generated_on : string
}.

Inductive html : Type :=
| GraphExplanation (n : nat)
| WhySonata
| SummaryReport (r : report)
| DownloadLink (path : string).

(** One call of [display] or of [plt.show]. *)
Inductive item : Type :=
| Table (row : OutputRecord)
| Figure (c : chart)
| Html (h : html)
| Text (s : string).

(** The state the functions act on: what has been shown so far, oldest
    first, and the files written; and what they read of their environment,
    the clock as [strftime] prints it and the temporary directory. *)
Record world : Type := {
  shown : list item;
  files : list (string * report);
  clock : string;
  temp_dir : string
}.

Definition io (A : Type) : Type := world -> world * outcome A.

Definition ret {A : Type} (a : A) : io A := fun w => (w, Done a).

Definition raise {A : Type} (e : raised) : io A := fun w => (w, Raised e).

Definition seq {A B : Type} (c : io A) (k : A -> io B) : io B :=
  fun w =>
    match c w with
    | (w', Done a) => k a w'
    | (w', Raised e) => (w', Raised e)
    end.

Notation "x <-- c ;; k" := (seq c (fun x => k))
  (at level 61, c at next level, right associativity).
Notation "c ;;; k" := (seq c (fun _ => k))
  (at level 61, right associativity).

(** [display(...)], [plt.show()] *)
Definition display (it : item) : io unit :=
  fun w =>
    ({| shown := shown w ++ [it]; files := files w; clock := clock w;
        temp_dir := temp_dir w |}, Done tt).

(** [with open(path, "w") as file: file.write(content)]: the file is
    created or replaced. *)
Definition write_file (path : string) (content : report) : io unit :=
  fun w =>
    ({| shown := shown w;
        files := (path, content)
                 :: filter (fun f => negb (String.eqb (fst f) path)) (files w);
        clock := clock w; temp_dir := temp_dir w |}, Done tt).

Definition read_file (path : string) (w : world) : option report :=
  option_map snd (find (fun f => String.eqb (fst f) path) (files w)).

(** [datetime.now().strftime(...)], [tempfile.gettempdir()] *)
Definition now : io string := fun w => (w, Done (clock w)).
Definition gettempdir : io string := fun w => (w, Done (temp_dir w)).

Definition of_core {A : Type} (r : result A) : io A :=
  match r with
  | Ok a => ret a
  | Raise e => raise (Core e)
  end.

(** [results[key]] *)
Definition item_of (results : OutputRecord) (key : string) : io string :=
  match get key results with
  | Some v => ret v
  | None => raise (KeyError key)
  end.

(** [float(results[key].replace(',', ''))] *)
Definition float_of (results : OutputRecord) (key : string) : io float :=
  v <-- item_of results key ;;
  match Parse.float_of_str (Parse.remove_commas v) with
  | Some x => ret x
  | None => raise (Core (ValueError "could not convert string to float"))
  end.

(** A list comprehension whose element expression may raise. *)
Fixpoint comprehension {A B : Type} (f : A -> io B) (l : list A)
  : io (list B) :=
  match l with
  | [] => ret []
  | a :: l' => b <-- f a ;; bs <-- comprehension f l' ;; ret (b :: bs)
  end.

(** [np.arange(1, 4)] *)
Definition years : list Z := [1; 2; 3]%Z.

(** A small integer as the float it converts to. *)
Definition float_of_int (z : Z) : float := of_uint63 (Uint63.of_Z z).

(** [np.cumsum]: the running sums, from left to right. *)
Fixpoint cumsum_from (acc : float) (l : list float) : list float :=
  match l with
  | [] => []
  | x :: l' => Py.add acc x :: cumsum_from (Py.add acc x) l'
  end.

Definition cumsum (l : list float) : list float :=
  match l with
  | [] => []
  | x :: l' => x :: cumsum_from x l'
  end.

(** A figure from [plt.figure] to [plt.show], then the paragraph under
    it. *)
Definition draw (c : chart) (n : nat) : io unit :=
  display (Figure c) ;;; display (Html (GraphExplanation n)).

(** [generate_graphs], lines 171 to 260. *)
Definition generate_graphs (inputs : InputRecord) (results : OutputRecord)
  : io unit :=
  let revenue :=
    Py.add (Py.add (revenue_increase inputs) (cost_savings inputs))
           (productivity_gains inputs) in
  let total_costs :=
    Py.add (Py.add (Py.add (Py.add (Py.add (development_costs inputs)
                                           (maintenance_costs inputs))
                                   (training_costs inputs))
                           (licensing_costs inputs))
                   (cloud_costs inputs))
           (support_ops_costs inputs) in
  roi_trend <--
    comprehension
      (fun i =>
         q <-- of_core (Py.truediv (Py.sub revenue total_costs) total_costs) ;;
         ret (Py.add (Py.mul q 100) (float_of_int (i * 10))))
      years ;;
  draw {| kind := Bar; title := "Revenue Components";
          xs := Categories ["Revenue Increase"; "Cost Savings";
                            "Productivity Gains"];
          ys := [revenue_increase inputs; cost_savings inputs;
                 productivity_gains inputs] |} 1 ;;;
  draw {| kind := Bar; title := "Cost Breakdown";
          xs := Categories ["Development"; "Maintenance"; "Training";
                            "Licensing"; "Cloud"; "Support & Ops"];
          ys := [development_costs inputs; maintenance_costs inputs;
                 training_costs inputs; licensing_costs inputs;
                 cloud_costs inputs; support_ops_costs inputs] |} 2 ;;;
  benefits <-- float_of results "Total Benefits" ;;
  costs <-- float_of results "Total Costs" ;;
  draw {| kind := Bar; title := "Total Benefits vs Total Costs";
          xs := Categories ["Total Benefits"; "Total Costs"];
          ys := [benefits; costs] |} 3 ;;;
  reduction <-- float_of results "People Cost Reduction" ;;
  saved <-- float_of results "Time Saved Value" ;;
  draw {| kind := Bar; title := "Cost Reduction vs Time Saved Value";
          xs := Categories ["People Cost Reduction"; "Time Saved Value"];
          ys := [reduction; saved] |} 4 ;;;
  draw {| kind := Line; title := "ROI Trend Over 3 Years";
          xs := Numbers years; ys := roi_trend |} 5 ;;;
  people_savings <--
    of_core (Py.mul_number (people_removed inputs) (average_salary inputs)) ;;
  draw {| kind := Line; title := "Cumulative Savings Over Time";
          xs := Categories ["Year 1"; "Year 2"; "Year 3"];
          ys := cumsum [cost_savings inputs; productivity_gains inputs;
                        people_savings] |} 6 ;;;
  net_benefits_over_time <--
    comprehension
      (fun i =>
         net <-- float_of results "Net Benefits" ;;
         ret (Py.mul net (Py.add 1 (Py.mul (float_of_int i) 0.05))))
      years ;;
  draw {| kind := Line; title := "Net Benefits Over Time";
          xs := Numbers years; ys := net_benefits_over_time |} 7.

(** [os.path.join(temp_dir, "roi_summary_report.html")] on a POSIX
    system. *)
Definition report_path (dir : string) : string :=
  match rev (list_ascii_of_string dir) with
  | [] => "roi_summary_report.html"
  | c :: _ =>
      if Ascii.eqb c "/" then dir ++ "roi_summary_report.html"
      else dir ++ "/roi_summary_report.html"
  end.

(** [generate_summary], lines 264 to 295. *)
Definition generate_summary (inputs : InputRecord) (results : OutputRecord)
  : io unit :=
  roi_value <-- float_of results "ROI (%)" ;;
  let roi_status :=
    if (0 <? roi_value)%float then "positive" else "negative" in
  total_benefits <-- item_of results "Total Benefits" ;;
  total_costs <-- item_of results "Total Costs" ;;
  net_benefits <-- item_of results "Net Benefits" ;;
  roi <-- item_of results "ROI (%)" ;;
  people_cost_reduction <-- item_of results "People Cost Reduction" ;;
  time_saved_value <-- item_of results "Time Saved Value" ;;
  stamp <-- now ;;
  let summary_html :=
    {| report_total_benefits := total_benefits;
       report_total_costs := total_costs;
       report_net_benefits := net_benefits;
       report_roi := roi;
       report_roi_status := roi_status;
       report_people_cost_reduction := people_cost_reduction;
       report_time_saved_value := time_saved_value;
       generated_on := stamp |} in
  display (Html (SummaryReport summary_html)) ;;;
  dir <-- gettempdir ;;
  let file_path := report_path dir in
  write_file file_path summary_html ;;;
  display (Html (DownloadLink file_path)).

(** [try: ... except ValueError as e: ...]: only a [ValueError] is
    handled; what the body has shown or written before it raised stays. *)
Definition try_except_ValueError (body : io unit) (handler : string -> io unit)
  : io unit :=
  fun w =>
    match body w with
    | (w', Raised (Core (ValueError msg))) => handler msg w'
    | r => r
    end.

(** [on_calculate_button_clicked], lines 134 to 163; [inputs] is the dict
    the handler reads from the thirteen widgets. *)
Definition on_calculate_button_clicked (inputs : InputRecord) : io unit :=
  try_except_ValueError
    (results <-- of_core (calculate_roi_agentiq inputs) ;;
     display (Table results) ;;;
     generate_graphs inputs results ;;;
     display (Html WhySonata) ;;;
     generate_summary inputs results)
    (fun msg => display (Text ("Error: " ++ msg))).

Definition empty_world : world :=
  {| shown := []; files := []; clock := "2025-01-01 00:00:00";
     temp_dir := "/tmp" |}.

End Notebook.

(** * Properties *)

(** ** Rounding keeps representable bounds *)

Module BoundsFacts.

Import Bounds.
Local Open Scope Z_scope.

(** *** Bits of a mantissa, and its right shifts *)

Lemma digits2_size p : digits2_pos p = Pos.size p.
Proof. induction p; simpl; congruence. Qed.

Lemma digits2_lower p : 2 ^ (Zpos (digits2_pos p) - 1) <= Zpos p.
Proof.
  rewrite digits2_size.
  pose proof (Pos.size_le p) as H.
  assert (E : Zpos (2 ^ Pos.size p) = 2 ^ Zpos (Pos.size p)) by apply Pos2Z.inj_pow.
  assert (2 ^ Zpos (Pos.size p) <= 2 * Zpos p) by (rewrite <- E; exact H).
  replace (Zpos (Pos.size p)) with (Z.succ (Zpos (Pos.size p) - 1)) in H0 by lia.
  rewrite Z.pow_succ_r in H0 by lia. lia.
Qed.

Lemma digits2_upper p : Zpos p < 2 ^ Zpos (digits2_pos p).
Proof.
  rewrite digits2_size.
  pose proof (Pos.size_gt p) as H.
  assert (E : Zpos (2 ^ Pos.size p) = 2 ^ Zpos (Pos.size p)) by apply Pos2Z.inj_pow.
  rewrite <- E. exact H.
Qed.

Lemma shr_1_below mrs k : below mrs (2 * k) -> below (shr_1 mrs) k.
Proof.
  destruct mrs as [m r s]. unfold below, inexact.
  destruct m as [|[p|p|]|p]; destruct r, s; cbn [shr_1 shr_m shr_r shr_s orb];
    rewrite ?(Pos2Z.inj_xI p), ?(Pos2Z.inj_xO p); lia.
Qed.

Lemma pow2_double p : 2 ^ Zpos p~0 = 2 ^ Zpos p * 2 ^ Zpos p.
Proof. rewrite <- Z.pow_add_r by lia. f_equal. lia. Qed.

Lemma iter_shr_1_below p : forall mrs k,
  below mrs (k * 2 ^ Zpos p) -> below (iter_pos shr_1 p mrs) k.
Proof.
  induction p as [p IH|p IH|]; intros mrs k H; simpl.
  - apply IH, IH, shr_1_below.
    replace (2 * (k * 2 ^ Zpos p * 2 ^ Zpos p)) with (k * 2 ^ Zpos p~1); [exact H|].
    replace (Zpos p~1) with (Z.succ (Zpos p~0)) by lia.
    rewrite Z.pow_succ_r, pow2_double by lia. ring.
  - apply IH, IH.
    replace (k * 2 ^ Zpos p * 2 ^ Zpos p) with (k * 2 ^ Zpos p~0); [exact H|].
    rewrite pow2_double. ring.
  - apply shr_1_below. rewrite Z.pow_1_r in H. now rewrite Z.mul_comm.
Qed.

Lemma fexp64_eq e : fexp prec emax e = Z.max (e - 53) (-1074).
Proof. reflexivity. Qed.

Lemma below_Zdigits m l k : below (shr_record_of_loc m l) k -> 0 <= m.
Proof. unfold below. destruct l as [|[]]; simpl; tauto. Qed.

Lemma shr_m_of_loc m l : shr_m (shr_record_of_loc m l) = m.
Proof. destruct l as [|[]]; reflexivity. Qed.

Lemma round_nearest_even_below mrs k :
  below mrs k ->
  0 <= round_nearest_even (shr_m mrs) (loc_of_shr_record mrs) <= k.
Proof.
  destruct mrs as [m r s]. unfold below, inexact; simpl.
  destruct r, s; simpl; try destruct (Z.even m); lia.
Qed.

(** *** Against a representable bound

    [mF * 2^eF] is a finite binary64 magnitude: its mantissa has at most 53
    bits and its exponent lies in the format's range. *)

Section RepresentableBound.

Variables (mF : positive) (eF : Z).
Hypothesis eF_range : -1074 <= eF <= 971.
Hypothesis mF_bits : Zpos mF < 2 ^ 53.

(** Shifting to the format's exponent keeps the bound: were the new
    exponent above [eF], the mantissa would have too many bits to be below
    the bound. *)
Lemma shr_fexp_below m ex l :
  ex <= eF ->
  below (shr_record_of_loc m l) (Zpos mF * 2 ^ (eF - ex)) ->
  let '(mrs, e') := shr_fexp prec emax m ex l in
  e' <= eF /\ below mrs (Zpos mF * 2 ^ (eF - e')).
Proof.
  intros Hex Hb.
  unfold shr_fexp, shr. rewrite fexp64_eq.
  destruct (Z.max (Zdigits2 m + ex - 53) (-1074) - ex) as [|n|n] eqn:En;
    try (split; [exact Hex|exact Hb]).
  assert (Hm : 0 <= m) by (eapply below_Zdigits; eauto).
  assert (He1 : ex + Zpos n <= eF).
  { destruct (Z.le_gt_cases (ex + Zpos n) eF) as [|Hgt]; [assumption|exfalso].
    destruct m as [|p|p]; cbn [Zdigits2] in En; try lia.
    assert (Hd : Zpos (digits2_pos p) + ex - 53 = ex + Zpos n) by lia.
    pose proof (digits2_lower p) as Hlow.
    assert (Hp : Zpos p <= Zpos mF * 2 ^ (eF - ex)).
    { destruct Hb as [_ Hb]. rewrite shr_m_of_loc in Hb.
      destruct (inexact _); lia. }
    assert (Hpow : 2 ^ 53 * 2 ^ (eF - ex) <= 2 ^ (Zpos (digits2_pos p) - 1)).
    { rewrite <- Z.pow_add_r by lia. apply Z.pow_le_mono_r; lia. }
    assert (0 < 2 ^ (eF - ex)) by (apply Z.pow_pos_nonneg; lia).
    nia. }
  split; [exact He1|].
  apply iter_shr_1_below.
  replace (Zpos mF * 2 ^ (eF - (ex + Zpos n)) * 2 ^ Zpos n)
    with (Zpos mF * 2 ^ (eF - ex)); [exact Hb|].
  rewrite <- Z.mul_assoc, <- Z.pow_add_r by lia. do 2 f_equal. lia.
Qed.

(** Rounding a magnitude that does not exceed a representable one gives a
    magnitude that does not exceed it either, and does not overflow. *)
Lemma binary_round_aux_le s mx ex lx :
  ex <= eF ->
  below (shr_record_of_loc mx lx) (Zpos mF * 2 ^ (eF - ex)) ->
  le_mag (binary_round_aux prec emax s mx ex lx) s mF eF.
Proof.
  intros Hex Hb. unfold binary_round_aux.
  pose proof (shr_fexp_below mx ex lx Hex Hb) as H1.
  destruct (shr_fexp prec emax mx ex lx) as [mrs1 e1].
  destruct H1 as [He1 Hb1].
  pose proof (round_nearest_even_below _ _ Hb1) as Hr.
  set (m1 := round_nearest_even (shr_m mrs1) (loc_of_shr_record mrs1)) in *.
  assert (Hb2 : below (shr_record_of_loc m1 loc_Exact)
                      (Zpos mF * 2 ^ (eF - e1))).
  { unfold below, inexact; cbn [shr_record_of_loc shr_m shr_r shr_s orb]. lia. }
  pose proof (shr_fexp_below m1 e1 loc_Exact He1 Hb2) as H2.
  destruct (shr_fexp prec emax m1 e1 loc_Exact) as [mrs2 e2].
  destruct H2 as [He2 [Hm2 Hb3]].
  revert Hm2 Hb3.
  destruct (shr_m mrs2) as [|m|m] eqn:Em; intros Hm2 Hb3;
    [left; reflexivity| |lia].
  right. replace (Z.leb e2 (emax - prec)) with true
    by (symmetry; apply Z.leb_le; change (emax - prec) with 971; lia).
  exists m, e2. repeat split; try assumption.
  destruct (inexact mrs2); lia.
Qed.

End RepresentableBound.

(** *** Signs *)

Lemma binary_round_aux_sign s mx ex lx :
  has_sign s (binary_round_aux prec emax s mx ex lx).
Proof.
  unfold binary_round_aux.
  destruct (shr_fexp prec emax mx ex lx) as [mrs1 e1].
  destruct (shr_fexp prec emax _ e1 loc_Exact) as [mrs2 e2].
  destruct (shr_m mrs2); [reflexivity | | exact I].
  destruct (Z.leb e2 (emax - prec)); reflexivity.
Qed.

Lemma binary_round_sign s mx ex : has_sign s (binary_round prec emax s mx ex).
Proof.
  unfold binary_round. destruct (shl_align _ _ _). apply binary_round_aux_sign.
Qed.

Lemma has_sign_nonneg x : has_sign false x -> nonneg x.
Proof. destruct x as [s|s| |s m e]; simpl; intros; subst; exact I. Qed.

Lemma nonneg_mul x y : nonneg x -> nonneg y -> nonneg (SF64mul x y).
Proof.
  destruct x as [[]|[]| |[] mx ex]; destruct y as [[]|[]| |[] my ey];
    simpl; try tauto; intros _ _.
  apply has_sign_nonneg, (binary_round_aux_sign false).
Qed.

Lemma nonneg_add x y : nonneg x -> nonneg y -> nonneg (SF64add x y).
Proof.
  destruct x as [[]|[]| |[] mx ex]; destruct y as [[]|[]| |[] my ey];
    simpl; try tauto; intros _ _.
  unfold SF64add, SFadd, cond_Zopp, binary_normalize.
  apply has_sign_nonneg, binary_round_sign.
Qed.

Lemma not_ltb_zero_nonneg x : SFltb x (S754_zero false) = false -> nonneg x.
Proof.
  destruct x as [s|[]| |[] m e]; simpl; intros H; try exact I; discriminate.
Qed.

(** *** Lower bounds through the three operations of the ROI *)

Lemma le_mag_ge_opp r mF eF : le_mag r true mF eF -> ge_opp r mF eF.
Proof. intros [->|(m & e & -> & H)]; simpl; auto. Qed.

Lemma has_sign_ge_opp r mF eF : has_sign false r -> ge_opp r mF eF.
Proof. destruct r as [s|s| |s m e]; simpl; intros; subst; exact I. Qed.

Lemma shl_align_spec m e t :
  let '(m', e') := shl_align m e t in
  e' <= e /\ Zpos m' = Zpos m * 2 ^ (e - e').
Proof.
  unfold shl_align. destruct (t - e) as [|d|d] eqn:E.
  - rewrite Z.sub_diag. simpl. lia.
  - rewrite Z.sub_diag. simpl. lia.
  - split; [lia|].
    change (Pos.iter xO m d) with (shift_pos d m).
    rewrite Zpower.shift_pos_correct, Zpower.Zpower_pos_nat, Zpower.Zpower_nat_Z.
    rewrite positive_nat_Z. replace (e - t) with (Zpos d) by lia. ring.
Qed.

Lemma valid_finite_bounds s m e :
  valid_binary (S754_finite s m e) = true ->
  -1074 <= e <= 971 /\ Zpos m < 2 ^ 53.
Proof.
  cbn [SpecFloat.valid_binary]. unfold bounded, canonical_mantissa.
  rewrite andb_true_iff, Z.eqb_eq, Z.leb_le, fexp64_eq.
  change (emax - prec) with 971. intros [Hc He].
  split; [lia|].
  eapply Z.lt_le_trans; [apply digits2_upper|].
  apply Z.pow_le_mono_r; lia.
Qed.

Lemma shl_align_le m e t :
  t <= e ->
  exists m', shl_align m e t = (m', t) /\ Zpos m' = Zpos m * 2 ^ (e - t).
Proof.
  intros Hle. pose proof (shl_align_spec m e t) as H.
  unfold shl_align in *. destruct (t - e) as [|d|d] eqn:E; try lia.
  - exists m. replace t with e by lia. rewrite Z.sub_diag. split; [reflexivity|lia].
  - eexists. split; [reflexivity|]. tauto.
Qed.

Lemma pow2_pos n : 0 <= n -> 0 < 2 ^ n.
Proof. intros. apply Z.pow_pos_nonneg; lia. Qed.

Lemma pow2_split a b : 0 <= a -> 0 <= b -> 2 ^ (a + b) = 2 ^ a * 2 ^ b.
Proof. intros. apply Z.pow_add_r; assumption. Qed.

(** [x - c >= -c] for [x] not below zero. *)
Lemma sub_ge_opp x mc ec :
  nonneg x -> valid_binary (S754_finite false mc ec) = true ->
  ge_opp (SF64sub x (S754_finite false mc ec)) mc ec.
Proof.
  intros Hx Hv. apply valid_finite_bounds in Hv. destruct Hv as [Hec Hmc].
  destruct x as [[]|[]| |[] mb eb]; simpl in Hx; try tauto;
    try (cbn; rewrite Z.sub_diag; simpl; lia); try exact I.
  unfold SF64sub, SFsub, cond_Zopp.
  set (ez := Z.min eb ec).
  destruct (shl_align_le mb eb ez ltac:(lia)) as (mb' & -> & Hb).
  destruct (shl_align_le mc ec ez ltac:(lia)) as (mc' & -> & Hc).
  cbn [fst]. unfold binary_normalize.
  destruct (Zpos mb' - Zpos mc') as [|z|z] eqn:Ez; [exact I| |].
  - apply has_sign_ge_opp, binary_round_sign.
  - apply le_mag_ge_opp. unfold binary_round.
    pose proof (shl_align_spec z ez (fexp prec emax (Zpos (digits2_pos z) + ez))) as Hz.
    destruct (shl_align z ez _) as [mz ez2]. destruct Hz as [Hez2 Hmz].
    apply binary_round_aux_le; try lia.
    unfold below, inexact; cbn [shr_record_of_loc shr_m shr_r shr_s orb].
    split; [lia|]. rewrite Hmz.
    replace (ec - ez2) with ((ec - ez) + (ez - ez2)) by lia.
    rewrite pow2_split, Z.mul_assoc, <- Hc by lia.
    apply Z.mul_le_mono_nonneg_r; [apply Z.lt_le_incl, pow2_pos|]; lia.
Qed.

Lemma new_location_exact n r :
  new_location n r = loc_Exact -> r = 0.
Proof.
  unfold new_location, new_location_even, new_location_odd.
  destruct (Z.even n); destruct (Z.eqb_spec r 0); auto; discriminate.
Qed.

(** [x / c >= -1] for [x >= -c]. *)
Lemma div_ge_opp x mc ec :
  ge_opp x mc ec -> valid_binary (S754_finite false mc ec) = true ->
  ge_opp (SF64div x (S754_finite false mc ec)) 4503599627370496 (-52).
Proof.
  intros Hx Hv. apply valid_finite_bounds in Hv. destruct Hv as [Hec Hmc].
  destruct x as [[]|[]| |[] mn en]; cbn [ge_opp] in Hx; try tauto; try exact I.
  2: { unfold SF64div, SFdiv.
       destruct (SFdiv_core_binary _ _ _ _ _ _) as [[mz ez] lz].
       apply has_sign_ge_opp, (binary_round_aux_sign false). }
  destruct Hx as [Hen Hmn].
  unfold SF64div, SFdiv, SFdiv_core_binary. cbn [Zdigits2 xorb].
  rewrite fexp64_eq.
  set (dn := Zpos (digits2_pos mn)). set (dc := Zpos (digits2_pos mc)).
  set (e' := Z.min (Z.max (dn + en - (dc + ec) - 53) (-1074)) (en - ec)).
  assert (Hd : dn + en <= dc + ec).
  { pose proof (digits2_lower mn) as Hl. pose proof (digits2_upper mc) as Hu.
    fold dn in Hl. fold dc in Hu.
    assert (2 ^ (dn - 1) < 2 ^ (dc + (ec - en))).
    { rewrite pow2_split by (unfold dc; lia).
      apply Z.le_lt_trans with (Zpos mc * 2 ^ (ec - en)); [lia|].
      apply Z.mul_lt_mono_pos_r; [apply pow2_pos; lia|exact Hu]. }
    apply Z.pow_lt_mono_r_iff in H; unfold dc; lia. }
  assert (He' : e' <= -53) by (unfold e'; lia).
  assert (Hs : 0 <= en - ec - e') by (unfold e'; lia).
  set (m' := match en - ec - e' with
             | 0 => Zpos mn | Zpos _ => Z.shiftl (Zpos mn) (en - ec - e') | Zneg _ => 0 end).
  assert (Hm' : m' = Zpos mn * 2 ^ (en - ec - e')).
  { unfold m'. destruct (en - ec - e') as [|p|p] eqn:E; try lia.
    rewrite Z.shiftl_mul_pow2 by lia. reflexivity. }
  clearbody m'.
  pose proof (Z_div_mod m' (Zpos mc) ltac:(lia)) as Hdiv.
  destruct (Z.div_eucl m' (Zpos mc)) as [q r]. destruct Hdiv as [Hq Hr].
  apply le_mag_ge_opp, binary_round_aux_le; try lia.
  assert (HK : m' <= Zpos mc * (4503599627370496 * 2 ^ (-52 - e'))).
  { change 4503599627370496 with (2 ^ 52). rewrite <- pow2_split by lia.
    replace (52 + (-52 - e')) with ((ec - en) + (en - ec - e')) by lia.
    rewrite pow2_split, Z.mul_assoc, Hm' by lia.
    apply Z.mul_le_mono_nonneg_r; [apply Z.lt_le_incl, pow2_pos|]; lia. }
  set (K := 4503599627370496 * 2 ^ (-52 - e')) in *.
  assert (Hq0 : 0 <= q).
  { assert (0 <= m') by (rewrite Hm'; pose proof (pow2_pos _ Hs); nia). nia. }
  unfold below, inexact.
  destruct (new_location (Zpos mc) r) as [|c] eqn:Eloc.
  - apply new_location_exact in Eloc.
    cbn [shr_record_of_loc shr_m shr_r shr_s orb]. split; [lia|]. nia.
  - assert (Hr0 : r <> 0).
    { intros ->. unfold new_location, new_location_even, new_location_odd in Eloc.
      destruct (Z.even _); discriminate. }
    assert (q + 1 <= K) by nia.
    destruct c; cbn [shr_record_of_loc shr_m shr_r shr_s orb]; lia.
Qed.

(** [x * c >= -c] for [x >= -1]. *)
Lemma mul_ge_opp x mF eF :
  ge_opp x 4503599627370496 (-52) ->
  valid_binary (S754_finite false mF eF) = true ->
  ge_opp (SF64mul x (S754_finite false mF eF)) mF eF.
Proof.
  intros Hx Hv. apply valid_finite_bounds in Hv. destruct Hv as [HeF HmF].
  destruct x as [[]|[]| |[] mq eq]; cbn [ge_opp] in Hx; try tauto; try exact I.
  2: { apply has_sign_ge_opp, (binary_round_aux_sign false). }
  destruct Hx as [Heq Hmq].
  unfold SF64mul, SFmul. cbn [xorb].
  apply le_mag_ge_opp, binary_round_aux_le; try lia.
  unfold below, inexact; cbn [shr_record_of_loc shr_m shr_r shr_s orb].
  split; [lia|].
  replace (eF - (eq + eF)) with (- eq) by lia.
  assert (Zpos mq <= 2 ^ (- eq)).
  { change 4503599627370496 with (2 ^ 52) in Hmq.
    rewrite <- pow2_split in Hmq by lia.
    replace (52 + (-52 - eq)) with (- eq) in Hmq by lia. exact Hmq. }
  rewrite Pos2Z.inj_mul. nia.
Qed.

(** The bounds as IEEE comparisons. *)
Lemma ge_opp_not_ltb x mF eF :
  ge_opp x mF eF -> SFltb x (S754_finite true mF eF) = false.
Proof.
  destruct x as [[]|[]| |[] m e]; cbn [ge_opp]; try tauto; try reflexivity.
  intros [He Hm]. unfold SFltb, SFcompare.
  destruct (Z.compare_spec e eF) as [->|Hlt|Hgt]; try reflexivity; [|exfalso; lia].
  rewrite Z.sub_diag, Z.pow_0_r, Z.mul_1_r in Hm.
  rewrite Pos.compare_cont_spec. cbn [Pos.switch_Eq].
  destruct (Pos.compare_spec m mF); try reflexivity. exfalso; lia.
Qed.

Lemma ge_opp_leb x mF eF :
  ge_opp x mF eF -> x = S754_nan \/ SFleb (S754_finite true mF eF) x = true.
Proof.
  destruct x as [[]|[]| |[] m e]; cbn [ge_opp]; try tauto;
    try (intros _; right; reflexivity).
  intros [He Hm]. right. unfold SFleb, SFcompare.
  destruct (Z.compare_spec eF e) as [<-|Hlt|Hgt]; try reflexivity; [|exfalso; lia].
  rewrite Z.sub_diag, Z.pow_0_r, Z.mul_1_r in Hm.
  rewrite Pos.compare_cont_spec. cbn [Pos.switch_Eq].
  destruct (Pos.compare_spec mF m); try reflexivity. exfalso; lia.
Qed.

(** A finite non-zero number divided by itself is exactly one. *)
Lemma div_self s m e :
  SF64div (S754_finite s m e) (S754_finite false m e) =
  S754_finite s 4503599627370496 (-52).
Proof.
  unfold SF64div, SFdiv, SFdiv_core_binary. cbn [Zdigits2].
  rewrite !Z.sub_diag.
  change (Z.min (fexp prec emax 0) 0) with (-53).
  change (0 - -53) with 53. cbv iota.
  assert (E : Z.div_eucl (Z.shiftl (Zpos m) 53) (Zpos m) = (2 ^ 53, 0)).
  { rewrite Z.shiftl_mul_pow2, Z.mul_comm by lia.
    pose proof (Z.div_mul (2 ^ 53) (Zpos m) ltac:(lia)) as Hq.
    pose proof (Z.mod_mul (2 ^ 53) (Zpos m) ltac:(lia)) as Hr.
    unfold Z.div, Z.modulo in Hq, Hr.
    destruct (Z.div_eucl (2 ^ 53 * Zpos m) (Zpos m)) as [q r].
    congruence. }
  change (IntDef.Z.div_eucl (IntDef.Z.shiftl (Zpos m) 53) (Zpos m))
    with (Z.div_eucl (Z.shiftl (Zpos m) 53) (Zpos m)).
  rewrite E.
  replace (new_location (Zpos m) 0) with loc_Exact
    by (unfold new_location; destruct (Z.even (Zpos m)); reflexivity).
  destruct s; vm_compute; reflexivity.
Qed.

End BoundsFacts.

(** ** Rounding gives numbers of the format *)

Module ValidFacts.

Import Bounds.
Local Open Scope Z_scope.

Lemma shr_1_m mrs : 0 <= shr_m mrs -> shr_m (shr_1 mrs) = shr_m mrs / 2.
Proof.
  destruct mrs as [m r s]. cbn [shr_m].
  destruct m as [|[p|p|]|p]; intros H; cbn [shr_1 shr_m]; try lia.
  - reflexivity.
  - rewrite Pos2Z.inj_xI. apply Z.div_unique with 1; lia.
  - rewrite Pos2Z.inj_xO. apply Z.div_unique with 0; lia.
  - reflexivity.
Qed.

Lemma iter_shr_1_m p : forall mrs,
  0 <= shr_m mrs ->
  shr_m (iter_pos shr_1 p mrs) = shr_m mrs / 2 ^ Zpos p.
Proof.
  assert (Hnn : forall mrs, 0 <= shr_m mrs -> 0 <= shr_m (shr_1 mrs)).
  { intros mrs H. rewrite shr_1_m by exact H. apply Z.div_pos; lia. }
  induction p as [p IH|p IH|]; intros mrs H; cbn [iter_pos].
  - assert (H1 := Hnn _ H).
    assert (H2 : 0 <= shr_m (iter_pos shr_1 p (shr_1 mrs))).
    { rewrite IH by exact H1. apply Z.div_pos; [exact H1|]. apply BoundsFacts.pow2_pos. lia. }
    rewrite IH by exact H2. rewrite IH by exact H1. rewrite shr_1_m by exact H.
    pose proof (BoundsFacts.pow2_pos (Zpos p) ltac:(lia)) as Hp.
    rewrite !Z.div_div by lia.
    f_equal. replace (Zpos p~1) with (Z.succ (Zpos p~0)) by lia.
    rewrite Z.pow_succ_r, BoundsFacts.pow2_double by lia. ring.
  - assert (H2 : 0 <= shr_m (iter_pos shr_1 p mrs)).
    { rewrite IH by exact H. apply Z.div_pos; [exact H|]. apply BoundsFacts.pow2_pos. lia. }
    rewrite IH by exact H2. rewrite IH by exact H.
    pose proof (BoundsFacts.pow2_pos (Zpos p) ltac:(lia)) as Hp.
    rewrite Z.div_div by lia.
    f_equal. rewrite BoundsFacts.pow2_double. ring.
  - rewrite shr_1_m by exact H. reflexivity.
Qed.

Lemma digits_bounds m : 0 < m -> 2 ^ (Zdigits2 m - 1) <= m < 2 ^ Zdigits2 m.
Proof.
  destruct m as [|p|p]; try lia. intros _. cbn [Zdigits2].
  split; [apply BoundsFacts.digits2_lower|apply BoundsFacts.digits2_upper].
Qed.

Lemma digits_pos m : 0 < m -> 0 < Zdigits2 m.
Proof. destruct m; cbn; lia. Qed.

Lemma digits_unique m d : 2 ^ (d - 1) <= m < 2 ^ d -> 0 < d -> Zdigits2 m = d.
Proof.
  intros [Hl Hu] Hd.
  assert (Hm : 0 < m).
  { eapply Z.lt_le_trans; [|exact Hl]. apply BoundsFacts.pow2_pos. lia. }
  destruct (digits_bounds m Hm) as [Hl' Hu']. pose proof (digits_pos m Hm) as Hp.
  assert (d - 1 < Zdigits2 m).
  { apply (Z.pow_lt_mono_r_iff 2); lia. }
  assert (Zdigits2 m - 1 < d).
  { apply (Z.pow_lt_mono_r_iff 2); lia. }
  lia.
Qed.

Lemma digits_le a b : 0 < a -> a <= b -> Zdigits2 a <= Zdigits2 b.
Proof.
  intros Ha Hab.
  destruct (digits_bounds a Ha) as [Hl _].
  destruct (digits_bounds b ltac:(lia)) as [_ Hu].
  pose proof (digits_pos b ltac:(lia)).
  assert (Zdigits2 a - 1 < Zdigits2 b).
  { apply (Z.pow_lt_mono_r_iff 2); lia. }
  lia.
Qed.

Lemma digits_div m n :
  0 < m -> 0 <= n -> n < Zdigits2 m -> 
  0 < m / 2 ^ n /\ Zdigits2 (m / 2 ^ n) = Zdigits2 m - n.
Proof.
  intros Hm Hn Hlt. destruct (digits_bounds m Hm) as [Hl Hu].
  pose proof (BoundsFacts.pow2_pos n Hn) as Hp.
  assert (Hlow : 2 ^ (Zdigits2 m - n - 1) <= m / 2 ^ n).
  { apply Z.div_le_lower_bound; [exact Hp|].
    rewrite <- BoundsFacts.pow2_split by lia.
    replace (n + (Zdigits2 m - n - 1)) with (Zdigits2 m - 1) by lia. exact Hl. }
  assert (Hup : m / 2 ^ n < 2 ^ (Zdigits2 m - n)).
  { apply Z.div_lt_upper_bound; [exact Hp|].
    rewrite <- BoundsFacts.pow2_split by lia.
    replace (n + (Zdigits2 m - n)) with (Zdigits2 m) by lia. exact Hu. }
  split.
  - eapply Z.lt_le_trans; [|exact Hlow]. apply BoundsFacts.pow2_pos. lia.
  - apply digits_unique; [|lia]. split; [|exact Hup].
    replace (Zdigits2 m - n - 1) with (Zdigits2 m - n - 1) by lia. exact Hlow.
Qed.

(** One alignment of a positive mantissa that is not shorter than the
    format asks: the new exponent is the format's, the mantissa loses the
    bits in between, and what is left, if anything, is canonical. *)
Lemma shr_fexp_canonical m ex l :
  0 < m -> ex <= fexp prec emax (Zdigits2 m + ex) ->
  let '(mrs, e1) := shr_fexp prec emax m ex l in
  e1 = fexp prec emax (Zdigits2 m + ex) /\
  shr_m mrs = m / 2 ^ (e1 - ex) /\
  (-1074 < Zdigits2 m + ex ->
   0 < shr_m mrs /\ Zdigits2 (shr_m mrs) + e1 = Zdigits2 m + ex).
Proof.
  intros Hm HP. unfold shr_fexp, shr.
  set (e1 := fexp prec emax (Zdigits2 m + ex)) in *.
  assert (He1 : e1 = Z.max (Zdigits2 m + ex - 53) (-1074)) by reflexivity.
  destruct (e1 - ex) as [|n|n] eqn:En; try lia.
  - split; [lia|]. rewrite BoundsFacts.shr_m_of_loc.
    replace (ex - ex) with 0 by lia. change (2 ^ 0) with 1. rewrite Z.div_1_r.
    split; [reflexivity|]. intros _. split; [lia|]. lia.
  - split; [lia|].
    rewrite iter_shr_1_m by (rewrite BoundsFacts.shr_m_of_loc; lia).
    rewrite BoundsFacts.shr_m_of_loc.
    replace (ex + Zpos n - ex) with (Zpos n) by lia.
    split; [reflexivity|]. intros Hbig.
    destruct (digits_div m (Zpos n)) as [Hpos Hd]; try lia.
Qed.


Lemma round_nearest_even_range m l :
  m <= round_nearest_even m l <= m + 1.
Proof.
  destruct l as [|[]]; cbn [round_nearest_even]; try lia.
  destruct (Z.even m); lia.
Qed.

(** Rounding a positive mantissa that is long enough for its exponent
    never gives zero or a number outside the format: the result is a
    canonical finite number of the sign asked, or the infinity of that
    sign. *)
Lemma binary_round_aux_valid sx mx ex lx :
  0 < mx ->
  ex <= fexp prec emax (Zdigits2 mx + ex) ->
  -1074 < Zdigits2 mx + ex ->
  binary_round_aux prec emax sx mx ex lx = S754_infinity sx \/
  exists m e,
    binary_round_aux prec emax sx mx ex lx = S754_finite sx m e /\
    bounded prec emax m e = true.
Proof.
  intros Hm HP Hbig. unfold binary_round_aux.
  pose proof (shr_fexp_canonical mx ex lx Hm HP) as H1.
  destruct (shr_fexp prec emax mx ex lx) as [mrs1 e1].
  destruct H1 as (He1 & _ & H1). destruct (H1 Hbig) as [Hp1 Hd1]. clear H1.
  pose proof (round_nearest_even_range (shr_m mrs1) (loc_of_shr_record mrs1)) as Hr.
  set (m2 := round_nearest_even (shr_m mrs1) (loc_of_shr_record mrs1)) in *.
  assert (Hm2 : 0 < m2) by lia.
  pose proof (digits_le (shr_m mrs1) m2 Hp1 ltac:(lia)) as Hd2.
  assert (HP2 : e1 <= fexp prec emax (Zdigits2 m2 + e1)).
  { rewrite BoundsFacts.fexp64_eq in He1 |- *. lia. }
  pose proof (shr_fexp_canonical m2 e1 loc_Exact Hm2 HP2) as H2.
  destruct (shr_fexp prec emax m2 e1 loc_Exact) as [mrs2 e2].
  destruct H2 as (He2 & _ & H2). destruct (H2 ltac:(lia)) as [Hp2 Hdd]. clear H2.
  destruct (shr_m mrs2) as [|m|m] eqn:Em; try lia.
  destruct (e2 <=? emax - prec) eqn:Ele; [right|left; reflexivity].
  exists m, e2. split; [reflexivity|].
  unfold bounded, canonical_mantissa. rewrite Ele, andb_true_r.
  apply Z.eqb_eq. cbn [Zdigits2] in Hdd. rewrite Hdd. symmetry. exact He2.
Qed.


Lemma shl_align_cases m e t :
  let '(m', e') := shl_align m e t in
  (t < e /\ e' = t /\ Zpos m' = Zpos m * 2 ^ (e - t)) \/
  (e <= t /\ m' = m /\ e' = e).
Proof.
  unfold shl_align. destruct (t - e) as [|d|d] eqn:E.
  - right. repeat split. lia.
  - right. repeat split. lia.
  - left. split; [lia|]. split; [reflexivity|].
    change (Pos.iter xO m d) with (shift_pos d m).
    rewrite Zpower.shift_pos_correct, Zpower.Zpower_pos_nat, Zpower.Zpower_nat_Z.
    rewrite positive_nat_Z. replace (e - t) with (Zpos d) by lia. ring.
Qed.

Lemma digits_mul_pow2 m n :
  0 < m -> 0 <= n -> Zdigits2 (m * 2 ^ n) = Zdigits2 m + n.
Proof.
  intros Hm Hn. destruct (digits_bounds m Hm) as [Hl Hu].
  pose proof (digits_pos m Hm) as Hd.
  pose proof (BoundsFacts.pow2_pos n Hn) as Hp.
  apply digits_unique; [|lia]. split.
  - replace (Zdigits2 m + n - 1) with ((Zdigits2 m - 1) + n) by lia.
    rewrite BoundsFacts.pow2_split by lia.
    apply Z.mul_le_mono_nonneg_r; lia.
  - rewrite BoundsFacts.pow2_split by lia.
    apply Z.mul_lt_mono_pos_r; lia.
Qed.

(** Rounding a mantissa that is not below the least exponent: a canonical
    finite number of the sign asked, or the infinity of that sign. *)
Lemma binary_round_valid s m e :
  -1074 < Zpos (digits2_pos m) + e ->
  binary_round prec emax s m e = S754_infinity s \/
  exists m' e',
    binary_round prec emax s m e = S754_finite s m' e' /\
    bounded prec emax m' e' = true.
Proof.
  intros Hbig. unfold binary_round.
  pose proof (shl_align_cases m e (fexp prec emax (Zpos (digits2_pos m) + e)))
    as H.
  destruct (shl_align m e _) as [mz ez].
  change (Zpos (digits2_pos m)) with (Zdigits2 (Zpos m)) in *.
  destruct H as [(Hlt & -> & Hmz)|(Hle & -> & ->)].
  - assert (Hd : Zdigits2 (Zpos mz) + fexp prec emax (Zdigits2 (Zpos m) + e) =
                 Zdigits2 (Zpos m) + e).
    { rewrite Hmz, digits_mul_pow2 by lia. lia. }
    apply binary_round_aux_valid; [lia| |lia].
    rewrite Hd. lia.
  - apply binary_round_aux_valid; [lia|exact Hle|exact Hbig].
Qed.

End ValidFacts.

(** ** The integers that convert to a float *)

Module LimitFacts.

Import Bounds ValidFacts.
Local Open Scope Z_scope.

Lemma shr_1_r mrs : 0 <= shr_m mrs -> shr_r (shr_1 mrs) = Z.odd (shr_m mrs).
Proof.
  destruct mrs as [m r s]. cbn [shr_m].
  destruct m as [|[p|p|]|p]; intros H; try lia; reflexivity.
Qed.

Lemma shr_1_nonneg mrs : 0 <= shr_m mrs -> 0 <= shr_m (shr_1 mrs).
Proof.
  intros H. rewrite shr_1_m by exact H. apply Z.div_pos; lia.
Qed.

Lemma iter_shr_1_nonneg p mrs :
  0 <= shr_m mrs -> 0 <= shr_m (iter_pos shr_1 p mrs).
Proof.
  intros H. rewrite iter_shr_1_m by exact H.
  apply Z.div_pos; [exact H|]. apply BoundsFacts.pow2_pos. lia.
Qed.

(** The round bit after a shift by [p] is bit [p - 1] of the mantissa. *)
Lemma iter_shr_1_r p : forall mrs,
  0 <= shr_m mrs ->
  shr_r (iter_pos shr_1 p mrs) = Z.odd (shr_m mrs / 2 ^ (Zpos p - 1)).
Proof.
  induction p as [p IH|p IH|]; intros mrs H; cbn [iter_pos].
  - pose proof (shr_1_nonneg mrs H) as H1.
    pose proof (iter_shr_1_nonneg p _ H1) as H2.
    rewrite IH by exact H2. rewrite iter_shr_1_m by exact H1.
    rewrite shr_1_m by exact H.
    pose proof (BoundsFacts.pow2_pos (Zpos p) ltac:(lia)) as Hp.
    pose proof (BoundsFacts.pow2_pos (Zpos p - 1) ltac:(lia)) as Hp'.
    rewrite !Z.div_div by lia. f_equal. f_equal.
    replace (Zpos p~1 - 1) with (1 + Zpos p + (Zpos p - 1)) by lia.
    rewrite !BoundsFacts.pow2_split by lia. change (2 ^ 1) with 2. ring.
  - pose proof (iter_shr_1_nonneg p _ H) as H2.
    rewrite IH by exact H2. rewrite iter_shr_1_m by exact H.
    pose proof (BoundsFacts.pow2_pos (Zpos p) ltac:(lia)) as Hp.
    pose proof (BoundsFacts.pow2_pos (Zpos p - 1) ltac:(lia)) as Hp'.
    rewrite Z.div_div by lia. f_equal. f_equal.
    replace (Zpos p~0 - 1) with (Zpos p + (Zpos p - 1)) by lia.
    rewrite BoundsFacts.pow2_split by lia. reflexivity.
  - rewrite shr_1_r by exact H. change (2 ^ (1 - 1)) with 1.
    now rewrite Z.div_1_r.
Qed.

(** An odd mantissa is rounded up exactly when the round bit is set. *)
Lemma round_nearest_even_odd mrs :
  Z.odd (shr_m mrs) = true ->
  round_nearest_even (shr_m mrs) (loc_of_shr_record mrs) =
  if shr_r mrs then shr_m mrs + 1 else shr_m mrs.
Proof.
  destruct mrs as [m [] []]; cbn [shr_m shr_r loc_of_shr_record round_nearest_even];
    intros H; try reflexivity.
  rewrite <- Z.negb_odd, H. reflexivity.
Qed.

(** The least magnitude that rounds beyond the largest float: halfway
    between that float and [2^1024]. *)
Lemma binary_round_overflow s m :
  binary_round prec emax s m 0 = S754_infinity s <->
  2 ^ 1024 - 2 ^ 970 <= Zpos m.
Proof.
  unfold binary_round.
  pose proof (digits_bounds (Zpos m) ltac:(lia)) as [Hl Hu].
  pose proof (digits_pos (Zpos m) ltac:(lia)) as Hd0.
  change (Zpos (digits2_pos m)) with (Zdigits2 (Zpos m)).
  set (d := Zdigits2 (Zpos m)) in *.
  pose proof (shl_align_cases m 0 (fexp prec emax (d + 0))) as Ha.
  rewrite Z.add_0_r, BoundsFacts.fexp64_eq in Ha |- *.
  destruct (shl_align m 0 (Z.max (d - 53) (-1074))) as [mz ez].
  assert (Hz : ez <= d - 53 /\ Zdigits2 (Zpos mz) + ez = d /\
               (53 < d -> mz = m /\ ez = 0)).
  { destruct Ha as [(Hlt & -> & Hmz)|(Hle & -> & ->)].
    - rewrite Hmz, digits_mul_pow2 by lia. fold d. lia.
    - fold d. lia. }
  clear Ha. destruct Hz as (Hez & Hdz & Hbig).
  unfold binary_round_aux.
  pose proof (shr_fexp_canonical (Zpos mz) ez loc_Exact ltac:(lia)) as H1.
  rewrite Hdz, BoundsFacts.fexp64_eq in H1. specialize (H1 ltac:(lia)).
  assert (Hrb : 53 < d ->
                shr_r (fst (shr_fexp prec emax (Zpos mz) ez loc_Exact)) =
                Z.odd (Zpos m / 2 ^ (d - 54))).
  { intros Hd. destruct (Hbig Hd) as [-> ->].
    unfold shr_fexp, shr. fold d. rewrite Z.add_0_r, BoundsFacts.fexp64_eq.
    destruct (Z.max (d - 53) (-1074) - 0) as [|n|n] eqn:En; try lia.
    cbn [fst]. rewrite iter_shr_1_r by (cbn; lia). cbn [shr_record_of_loc shr_m].
    f_equal. f_equal. f_equal. lia. }
  destruct (shr_fexp prec emax (Zpos mz) ez loc_Exact) as [mrs1 e1].
  cbn [fst] in Hrb.
  destruct H1 as (He1 & Hm1 & H1). destruct (H1 ltac:(lia)) as [Hp1 Hd1].
  clear H1.
  assert (E1 : e1 = d - 53) by lia.
  assert (D1 : Zdigits2 (shr_m mrs1) = 53) by lia.
  pose proof (digits_bounds _ Hp1) as [Hl1 Hu1]. rewrite D1 in Hl1, Hu1.
  change (2 ^ (53 - 1)) with 4503599627370496 in Hl1.
  change (2 ^ 53) with 9007199254740992 in Hu1.
  pose proof (round_nearest_even_range (shr_m mrs1) (loc_of_shr_record mrs1))
    as Hr.
  pose proof (round_nearest_even_odd mrs1) as Hodd.
  set (m2 := round_nearest_even (shr_m mrs1) (loc_of_shr_record mrs1)) in *.
  assert (Hd2 : 53 <= Zdigits2 m2 <= 54).
  { split.
    - rewrite <- D1. apply digits_le; lia.
    - change 54 with (Zdigits2 9007199254740992). apply digits_le; lia. }
  assert (Hd2' : Zdigits2 m2 = 54 <-> 9007199254740992 <= m2).
  { pose proof (digits_bounds m2 ltac:(lia)) as [Hl2 Hu2]. split.
    - intros E. rewrite E in Hl2. exact Hl2.
    - intros Hge. pose proof (digits_le 9007199254740992 m2 ltac:(lia) Hge) as Hx.
      change (Zdigits2 9007199254740992) with 54 in Hx. lia. }
  pose proof (shr_fexp_canonical m2 e1 loc_Exact ltac:(lia)) as H2.
  rewrite BoundsFacts.fexp64_eq in H2. specialize (H2 ltac:(lia)).
  destruct (shr_fexp prec emax m2 e1 loc_Exact) as [mrs2 e2].
  destruct H2 as (He2 & _ & H2). destruct (H2 ltac:(lia)) as [Hp2 _]. clear H2.
  assert (E2 : e2 = Zdigits2 m2 + d - 106) by lia.
  destruct (shr_m mrs2) as [|m3|m3]; try lia.
  change (emax - prec) with 971.
  assert (Hinf : (if e2 <=? 971 then S754_finite s m3 e2 else S754_infinity s) =
                 S754_infinity s <-> 971 < e2).
  { destruct (Z.leb_spec e2 971); split; intros; try lia; try discriminate.
    reflexivity. }
  rewrite Hinf. clear Hinf.
  assert (P1023 : 2 ^ 1023 < 2 ^ 1024 - 2 ^ 970) by (vm_compute; reflexivity).
  assert (P1024 : 2 ^ 1024 - 2 ^ 970 < 2 ^ 1024) by (vm_compute; reflexivity).
  destruct (Z_lt_le_dec d 1024) as [Hs|Hs].
  { (* at most 1023 bits *)
    split; [lia|]. intros Hge.
    assert (2 ^ d <= 2 ^ 1023) by (apply Z.pow_le_mono_r; lia). lia. }
  destruct (Z_lt_le_dec 1024 d) as [Hb|Hb].
  { (* at least 1025 bits *)
    split; [|lia]. intros _.
    assert (2 ^ 1024 <= 2 ^ (d - 1)) by (apply Z.pow_le_mono_r; lia). lia. }
  assert (Ed : d = 1024) by lia. clear Hs Hb.
  destruct (Hbig ltac:(lia)) as [-> ->].
  specialize (Hrb ltac:(lia)).
  rewrite Ed in Hrb, E1, E2. rewrite E1, Z.sub_0_r in Hm1.
  change (1024 - 53) with 971 in Hm1. change (1024 - 54) with 970 in Hrb.
  assert (Hq : Zpos m / 2 ^ 971 = (Zpos m / 2 ^ 970) / 2).
  { rewrite Z.div_div by (try apply BoundsFacts.pow2_pos; lia).
    f_equal. }
  set (q := Zpos m / 2 ^ 970) in *.
  pose proof (Z.div_mod (Zpos m) (2 ^ 970) ltac:(vm_compute; discriminate)) as Hdm.
  pose proof (Z.mod_pos_bound (Zpos m) (2 ^ 970) ltac:(reflexivity)) as Hmod.
  fold q in Hdm.
  pose proof (Z.div_mod q 2 ltac:(lia)) as Hq2.
  pose proof (Z.mod_pos_bound q 2 ltac:(lia)) as Hq2b.
  rewrite <- Hq, <- Hm1 in Hq2.
  assert (Hoq : Z.odd q = true <-> q mod 2 = 1).
  { rewrite Zodd_mod. destruct (Z.eqb_spec (q mod 2) 1); split; intros;
      try reflexivity; try lia; try discriminate. }
  assert (K : 2 ^ 1024 - 2 ^ 970 = 18014398509481983 * 2 ^ 970)
    by (vm_compute; reflexivity).
  rewrite K. set (P := 2 ^ 970) in *.
  assert (HP : 0 < P) by (apply BoundsFacts.pow2_pos; lia).
  assert (Main : 9007199254740992 <= m2 <-> 18014398509481983 <= q).
  { destruct (Z.eq_dec (shr_m mrs1) 9007199254740991) as [Et|Et].
    - assert (Ho : Z.odd (shr_m mrs1) = true) by (rewrite Et; reflexivity).
      specialize (Hodd Ho). rewrite Hodd, Hrb.
      destruct (Z.odd q) eqn:Oq.
      + assert (q mod 2 = 1) by (apply Hoq; reflexivity). lia.
      + assert (q mod 2 <> 1) by (intros E; apply Hoq in E; discriminate). lia.
    - lia. }
  split.
  - intros He. assert (Zdigits2 m2 = 54) by lia.
    apply Hd2' in H. apply Main in H. nia.
  - intros Hge. assert (18014398509481983 <= q) by nia.
    apply Main, Hd2' in H. lia.
Qed.

End LimitFacts.



(** ** The formatting on known values

    Each line is what CPython 3 prints for [f"{x:,.2f}"]. *)

Example comma_2f_grouping : Format.comma_2f 1234567.891 = "1,234,567.89".
Proof. vm_compute. reflexivity. Qed.

Example comma_2f_tie_to_even_down : Format.comma_2f 0.125 = "0.12".
Proof. vm_compute. reflexivity. Qed.

Example comma_2f_tie_to_even_up : Format.comma_2f 0.375 = "0.38".
Proof. vm_compute. reflexivity. Qed.

Example comma_2f_binary_value_below : Format.comma_2f 2.675 = "2.67".
Proof. vm_compute. reflexivity. Qed.

Example comma_2f_binary_value_above : Format.comma_2f 999.995 = "1,000.00".
Proof. vm_compute. reflexivity. Qed.

Example comma_2f_negative_rounds_to_zero : Format.comma_2f (-0.001) = "-0.00".
Proof. vm_compute. reflexivity. Qed.

Example comma_2f_negative_zero : Format.comma_2f (-0) = "-0.00".
Proof. vm_compute. reflexivity. Qed.

Example comma_2f_smallest : Format.comma_2f 5e-324 = "0.00".
Proof. vm_compute. reflexivity. Qed.

Example comma_2f_large :
  Format.comma_2f 1e22 = "10,000,000,000,000,000,000,000.00".
Proof. vm_compute. reflexivity. Qed.

Example comma_2f_infinity : Format.comma_2f (1e308 * 10) = "inf".
Proof. vm_compute. reflexivity. Qed.

Example comma_2f_negative_infinity : Format.comma_2f neg_infinity = "-inf".
Proof. vm_compute. reflexivity. Qed.

Example comma_2f_nan : Format.comma_2f (infinity - infinity) = "nan".
Proof. vm_compute. reflexivity. Qed.

(** ** Validation and the arithmetic *)

Lemma non_negative_not_negative x : non_negative x = true -> negative x = false.
Proof.
  unfold non_negative, negative, Py.lt. rewrite leb_spec, ltb_spec.
  change (Prim2SF 0) with (S754_zero false).
  destruct (Prim2SF x) as [s|[]| |[] m e]; cbv [SFleb SFltb SFcompare];
    congruence.
Qed.

Lemma non_negative_number_not_negative n :
  non_negative_number n = true -> negative_number n = false.
Proof.
  destruct n as [z|x]; cbn [non_negative_number negative_number Py.lt_zero].
  - intros H. apply Z.ltb_ge, Z.leb_le, H.
  - apply non_negative_not_negative.
Qed.

(** The thirteen fields are [people_removed] and the twelve of the first
    validation statement. *)
Lemma in_fields i n :
  In n (fields i) <->
  n = people_removed i \/ exists x, n = Float x /\ In x (checked_params i).
Proof.
  unfold fields, checked_params. cbn [In]. split.
  - intros H.
    repeat (destruct H as [<-|H]; [solve [left; reflexivity
                                         | right; eexists; split;
                                           [reflexivity|tauto]]|]).
    destruct H.
  - intros [->|(x & -> & H)]; [tauto|].
    repeat (destruct H as [<-|H]; [tauto|]). destruct H.
Qed.

Lemma validate_ok_iff i :
  validate i = Ok tt <->
  forall n, In n (fields i) -> negative_number n = false.
Proof.
  unfold validate, Py.any. split.
  - destruct (existsb _ (checked_params i)) eqn:E; [discriminate|].
    destruct (Py.lt_zero (people_removed i)) eqn:E'; [discriminate|].
    intros _ n Hn. apply in_fields in Hn. destruct Hn as [->|(x & -> & Hx)].
    + exact E'.
    + cbn [negative_number Py.lt_zero].
      destruct (Py.lt x 0) eqn:Ex; [|reflexivity].
      assert (existsb (fun param => Py.lt param 0) (checked_params i) = true)
        by (apply existsb_exists; eauto).
      congruence.
  - intros H.
    destruct (existsb _ (checked_params i)) eqn:E.
    + apply existsb_exists in E. destruct E as (x & Hx & Hneg).
      assert (Hf : In (Float x) (fields i)) by (apply in_fields; eauto).
      apply H in Hf. cbn [negative_number Py.lt_zero] in Hf. congruence.
    + assert (Hf : In (people_removed i) (fields i))
        by (apply in_fields; tauto).
      apply H in Hf. unfold negative_number in Hf. rewrite Hf. reflexivity.
Qed.

Lemma validate_raises i e :
  validate i = Raise e ->
  (exists msg, e = ValueError msg) /\
  exists n, In n (fields i) /\ negative_number n = true.
Proof.
  unfold validate, Py.any. intros H.
  destruct (existsb _ (checked_params i)) eqn:E.
  - split; [inversion H; eauto|].
    apply existsb_exists in E. destruct E as (x & Hx & Hneg).
    exists (Float x). split; [|exact Hneg].
    apply in_fields. eauto.
  - destruct (Py.lt_zero (people_removed i)) eqn:E'; [|discriminate].
    split; [inversion H; eauto|].
    exists (people_removed i). split; [|exact E'].
    apply in_fields. tauto.
Qed.

Lemma validate_non_negative i : non_negative_input i -> validate i = Ok tt.
Proof.
  intros H. apply validate_ok_iff. intros n Hn.
  apply non_negative_number_not_negative, H, Hn.
Qed.

(** The conditional of line 76 never raises: it divides only by a divisor
    that [!=] has found different from zero. *)
Lemma roi_percent_ok nb tc :
  roi_percent nb tc =
  Ok (if Py.ne tc 0 then Py.mul (nb / tc)%float 100 else 0%float).
Proof.
  unfold roi_percent, Py.ne, Py.truediv.
  destruct (tc =? 0)%float; reflexivity.
Qed.

(** Every local variable of a call that passes validation and whose
    [people_removed] stands for the float [p]. *)
Lemma roi_metrics_valid i p :
  validate i = Ok tt ->
  Py.as_float (people_removed i) = Ok p ->
  exists m,
    roi_metrics i = Ok m /\
    time_saved_value m = Py.mul (time_saved_hours i) (hourly_rate i) /\
    people_cost_reduction m = Py.mul p (average_salary i) /\
    total_benefits m =
      Py.add (Py.add (Py.add (Py.add (revenue_increase i) (cost_savings i))
                             (productivity_gains i))
                     (time_saved_value m))
             (people_cost_reduction m) /\
    total_costs m =
      Py.add (Py.add (Py.add (Py.add (Py.add (development_costs i)
                                             (maintenance_costs i))
                                     (training_costs i))
                             (licensing_costs i))
                     (cloud_costs i))
             (support_ops_costs i) /\
    net_benefits m = Py.sub (total_benefits m) (total_costs m) /\
    roi m = (if Py.ne (total_costs m) 0
             then Py.mul (net_benefits m / total_costs m)%float 100
             else 0%float).
Proof.
  intros Hv Hp. unfold roi_metrics, Py.mul_number. rewrite Hv, Hp. cbn [bind].
  rewrite roi_percent_ok. cbn [bind].
  eexists. split; [reflexivity|]. cbn.
  repeat split; reflexivity.
Qed.

Lemma calculate_of_metrics i m :
  roi_metrics i = Ok m -> calculate_roi_agentiq i = Ok (format_metrics m).
Proof. unfold calculate_roi_agentiq. intros ->. reflexivity. Qed.

(** A call that passes validation fails at the conversion of
    [people_removed] when that fails. *)
Lemma roi_metrics_conversion_fails i e :
  validate i = Ok tt ->
  Py.as_float (people_removed i) = Raise e ->
  roi_metrics i = Raise e.
Proof.
  intros Hv Hp. unfold roi_metrics, Py.mul_number. rewrite Hv, Hp. reflexivity.
Qed.

(** The two places where a call can fail. *)
Lemma roi_metrics_raises i e :
  roi_metrics i = Raise e ->
  validate i = Raise e \/
  (validate i = Ok tt /\ Py.as_float (people_removed i) = Raise e).
Proof.
  unfold roi_metrics, Py.mul_number.
  destruct (validate i) as [[]|e'] eqn:Hv; cbn [bind].
  - destruct (Py.as_float (people_removed i)) as [p|e'] eqn:Hp; cbn [bind].
    + rewrite roi_percent_ok. cbn [bind]. discriminate.
    + intros H; inversion H. right. split; reflexivity.
  - intros H; inversion H. left. reflexivity.
Qed.

Lemma calculate_raises i e :
  calculate_roi_agentiq i = Raise e ->
  validate i = Raise e \/
  (validate i = Ok tt /\ Py.as_float (people_removed i) = Raise e).
Proof.
  unfold calculate_roi_agentiq. intros H. apply roi_metrics_raises.
  destruct (roi_metrics i); [discriminate|inversion H; reflexivity].
Qed.

Lemma validate_raise_calculate i e :
  validate i = Raise e -> calculate_roi_agentiq i = Raise e.
Proof.
  intros H. unfold calculate_roi_agentiq, roi_metrics. rewrite H. reflexivity.
Qed.

Lemma conversion_fails_calculate i e :
  validate i = Ok tt ->
  Py.as_float (people_removed i) = Raise e ->
  calculate_roi_agentiq i = Raise e.
Proof.
  intros Hv Hp. unfold calculate_roi_agentiq.
  rewrite (roi_metrics_conversion_fails i e Hv Hp). reflexivity.
Qed.

(** The conversion of an [int] fails in one way only. *)
Lemma as_float_raises n e :
  Py.as_float n = Raise e ->
  e = OverflowError "int too large to convert to float" /\
  exists z, n = Int z.
Proof.
  destruct n as [z|x]; cbn [Py.as_float]; [|discriminate].
  unfold Py.int_as_float. intros H. split; [|eauto].
  destruct (binary_normalize prec emax z 0 false); congruence.
Qed.

(** What the conversion of an [int] gives is the rounding of that [int],
    which is a number of the format. *)
Lemma int_as_float_spec z p :
  Py.int_as_float z = Ok p ->
  Prim2SF p = binary_normalize prec emax z 0 false.
Proof.
  unfold Py.int_as_float, binary_normalize.
  destruct z as [|m|m].
  - intros H. injection H as <-. reflexivity.
  - destruct (ValidFacts.binary_round_valid false m 0 ltac:(lia))
      as [E|(m' & e' & E & Hb)]; rewrite E; [discriminate|].
    intros H. injection H as <-.
    exact (Prim2SF_SF2Prim (S754_finite false m' e') Hb).
  - destruct (ValidFacts.binary_round_valid true m 0 ltac:(lia))
      as [E|(m' & e' & E & Hb)]; rewrite E; [discriminate|].
    intros H. injection H as <-.
    exact (Prim2SF_SF2Prim (S754_finite true m' e') Hb).
Qed.

(** The conversion of an [int] fails exactly from [2^1024 - 2^970] on. *)
Lemma int_as_float_raises_iff z :
  (exists e, Py.int_as_float z = Raise e) <->
  (2 ^ 1024 - 2 ^ 970 <= Z.abs z)%Z.
Proof.
  assert (Hpos : (0 < 2 ^ 1024 - 2 ^ 970)%Z) by (vm_compute; reflexivity).
  unfold Py.int_as_float, binary_normalize.
  destruct z as [|m|m]; cbn [Z.abs].
  - split; [intros [e H]; discriminate|lia].
  - rewrite <- (LimitFacts.binary_round_overflow false m).
    destruct (ValidFacts.binary_round_valid false m 0 ltac:(lia))
      as [E|(m' & e' & E & Hb)]; rewrite E.
    + split; [reflexivity|eauto].
    + split; [intros [e H]|]; discriminate.
  - rewrite <- (LimitFacts.binary_round_overflow true m).
    destruct (ValidFacts.binary_round_valid true m 0 ltac:(lia))
      as [E|(m' & e' & E & Hb)]; rewrite E.
    + split; [reflexivity|eauto].
    + split; [intros [e H]|]; discriminate.
Qed.

(** A number converts exactly when it is within the range of binary64. *)
Lemma as_float_ok_iff n :
  (exists p, Py.as_float n = Ok p) <-> in_float_range n = true.
Proof.
  destruct n as [z|x]; cbn [Py.as_float in_float_range].
  - rewrite Z.ltb_lt. pose proof (int_as_float_raises_iff z) as H.
    destruct (Py.int_as_float z) as [p|e].
    + split; [|eauto]. intros _.
      apply Z.nle_gt. intros Hge. apply H in Hge. destruct Hge; discriminate.
    + split; [intros [p Hp]; discriminate|].
      intros Hlt. assert (exists e', @Raise float e = Raise e') by eauto.
      apply H in H0. lia.
  - split; [reflexivity|eauto].
Qed.

Lemma as_float_raises_iff n :
  (exists e, Py.as_float n = Raise e) <-> in_float_range n = false.
Proof.
  pose proof (as_float_ok_iff n) as H.
  destruct (in_float_range n); destruct (Py.as_float n) as [p|e].
  - split; [intros [e H']|]; discriminate.
  - destruct H as [_ H]. destruct (H eq_refl); discriminate.
  - destruct H as [H _]. specialize (H ltac:(eauto)). discriminate.
  - split; [reflexivity|eauto].
Qed.

Lemma int_as_float_nonneg z p :
  (0 <= z)%Z -> Py.int_as_float z = Ok p -> Bounds.nonneg (Prim2SF p).
Proof.
  intros Hz H. rewrite (int_as_float_spec z p H).
  destruct z as [|m|m]; [exact I| |lia].
  apply BoundsFacts.has_sign_nonneg, BoundsFacts.binary_round_sign.
Qed.

(** Non-negativity of a concrete input, field by field. *)
Lemma non_negative_input_b i :
  forallb non_negative_number (fields i) = true -> non_negative_input i.
Proof.
  intros H x Hx. rewrite forallb_forall in H. apply H, Hx.
Qed.

Ltac concrete_input := apply non_negative_input_b; vm_compute; reflexivity.

(** ** The scenarios of the specification *)

Example scenario_A_zero :
  calculate_roi_agentiq scenario_A =
  Ok [ ("Total Benefits", "0.00"); ("Total Costs", "0.00");
       ("Net Benefits", "0.00"); ("ROI (%)", "0.00");
       ("People Cost Reduction", "0.00"); ("Time Saved Value", "0.00") ].
Proof. vm_compute. reflexivity. Qed.

Example scenario_C_people_removed_negative :
  calculate_roi_agentiq (with_people_removed (Int (-1)) scenario_B) =
  Raise (ValueError "Number of people removed cannot be negative.").
Proof. vm_compute. reflexivity. Qed.

Example scenario_D_hourly_rate_negative :
  calculate_roi_agentiq (with_hourly_rate (-5) scenario_B) =
  Raise (ValueError "Inputs must be non-negative values.").
Proof. vm_compute. reflexivity. Qed.

(** A NaN field is not negative: the validation lets it through. *)
Example nan_passes_validation :
  calculate_roi_agentiq (with_hourly_rate nan scenario_B) =
  Ok [ ("Total Benefits", "nan"); ("Total Costs", "155,000.00");
       ("Net Benefits", "nan"); ("ROI (%)", "nan");
       ("People Cost Reduction", "300,000.00"); ("Time Saved Value", "nan") ].
Proof. vm_compute. reflexivity. Qed.

(** ** The claims *)



(** C2, as the code has it.  The call fails with the validation error
    (Python's [ValueError]) if and only if at least one of the thirteen
    fields is negative; it fails with [OverflowError] if and only if no
    field is negative and [people_removed] is an [int] from
    [2^1024 - 2^970] on, which no float is near enough to; it returns an
    output record in every other case and in no other, so a failing call
    produces none; and it fails in no third way. *)
Theorem C2_failure_iff_negative i :
  ((exists msg, calculate_roi_agentiq i = Raise (ValueError msg)) <->
   (exists n, In n (fields i) /\ negative_number n = true)) /\
  ((exists msg, calculate_roi_agentiq i = Raise (OverflowError msg)) <->
   ((forall n, In n (fields i) -> negative_number n = false) /\
    in_float_range (people_removed i) = false)) /\
  ((exists out, calculate_roi_agentiq i = Ok out) <->
   ((forall n, In n (fields i) -> negative_number n = false) /\
    in_float_range (people_removed i) = true)) /\
  (forall e, calculate_roi_agentiq i = Raise e ->
             exists msg, e = ValueError msg \/ e = OverflowError msg) /\
  (non_negative_input i -> in_float_range (people_removed i) = true ->
   exists out, calculate_roi_agentiq i = Ok out).
Proof.
  assert (Hok : (forall n, In n (fields i) -> negative_number n = false) ->
                in_float_range (people_removed i) = true ->
                exists out, calculate_roi_agentiq i = Ok out).
  { intros H Hr. apply validate_ok_iff in H.
    apply as_float_ok_iff in Hr. destruct Hr as [p Hp].
    destruct (roi_metrics_valid i p H Hp) as (m & Hm & _).
    exists (format_metrics m). exact (calculate_of_metrics i m Hm). }
  assert (Hcases :
    (exists msg, validate i = Raise (ValueError msg) /\
                 calculate_roi_agentiq i = Raise (ValueError msg) /\
                 exists n, In n (fields i) /\ negative_number n = true) \/
    ((forall n, In n (fields i) -> negative_number n = false) /\
     ((in_float_range (people_removed i) = false /\
       calculate_roi_agentiq i =
       Raise (OverflowError "int too large to convert to float")) \/
      (in_float_range (people_removed i) = true /\
       exists out, calculate_roi_agentiq i = Ok out)))).
  { destruct (validate i) as [[]|e] eqn:Hv.
    - right. pose proof Hv as Hn. rewrite validate_ok_iff in Hn.
      split; [exact Hn|].
      destruct (in_float_range (people_removed i)) eqn:Hr.
      + right. split; [reflexivity|]. apply Hok; [exact Hn|reflexivity].
      + left. split; [reflexivity|].
        apply as_float_raises_iff in Hr. destruct Hr as [e He].
        destruct (as_float_raises _ _ He) as [-> _].
        apply conversion_fails_calculate; assumption.
    - left. destruct (validate_raises i e Hv) as [[msg ->] Hn].
      exists msg. split; [reflexivity|].
      split; [apply validate_raise_calculate, Hv|exact Hn]. }
  assert (Hexcl : forall n, In n (fields i) -> negative_number n = true ->
                  (forall n', In n' (fields i) -> negative_number n' = false) ->
                  False).
  { intros n Hn Hneg Hall. rewrite (Hall n Hn) in Hneg. discriminate. }
  split; [|split; [|split; [|split]]].
  - split.
    + intros [msg H].
      destruct Hcases as [(msg' & _ & _ & Hn)|(_ & [[_ E]|[_ [out E]]])];
        [exact Hn|congruence|congruence].
    + intros (n & Hn & Hneg).
      destruct Hcases as [(msg' & _ & E & _)|(Hall & _)]; [eauto|].
      destruct (Hexcl n Hn Hneg Hall).
  - split.
    + intros [msg H].
      destruct Hcases as [(msg' & _ & E & _)|(Hall & [[Hr _]|[_ [out E]]])];
        [congruence|tauto|congruence].
    + intros (Hall & Hr).
      destruct Hcases as [(msg' & _ & _ & n & Hn & Hneg)
                         |(_ & [[_ E]|[Hr' _]])];
        [destruct (Hexcl n Hn Hneg Hall)|eauto|congruence].
  - split.
    + intros [out H].
      destruct Hcases as [(msg' & _ & E & _)|(Hall & [[_ E]|[Hr _]])];
        [congruence|congruence|tauto].
    + intros (Hall & Hr). apply Hok; assumption.
  - intros e H.
    destruct Hcases as [(msg' & _ & E & _)|(_ & [[_ E]|[_ [out E]]])];
      [|  |congruence].
    + exists msg'. left. congruence.
    + eexists. right. rewrite E in H. injection H as <-. reflexivity.
  - intros H Hr. apply Hok; [|exact Hr].
    intros n Hn. apply non_negative_number_not_negative, H, Hn.
Qed.

(** C2 as stated fails: with 2^1024 people removed beside the twelve
    other fields of scenario B, every field is non-negative, and the call
    does not return: [people_removed * average_salary] raises
    [OverflowError], which is not the validation error. *)
Lemma C2_counterexample :
  non_negative_input (with_people_removed beyond_binary64 scenario_B) /\
  calculate_roi_agentiq (with_people_removed beyond_binary64 scenario_B) =
  Raise (OverflowError "int too large to convert to float") /\
  ~ (exists out,
       calculate_roi_agentiq (with_people_removed beyond_binary64 scenario_B) =
       Ok out).
Proof.
  assert (E : calculate_roi_agentiq
                (with_people_removed beyond_binary64 scenario_B) =
              Raise (OverflowError "int too large to convert to float"))
    by (vm_compute; reflexivity).
  split; [concrete_input|]. split; [exact E|].
  intros [out H]. rewrite E in H. discriminate.
Qed.



(** C4. For every non-negative input whose [people_removed] converts, the
    call returns; when its total costs differ from zero, the ROI is
    (net_benefits / total_costs) * 100 in float arithmetic. *)
Theorem C4_roi_formula i p :
  non_negative_input i ->
  Py.as_float (people_removed i) = Ok p ->
  exists m,
    roi_metrics i = Ok m /\
    calculate_roi_agentiq i = Ok (format_metrics m) /\
    (Py.ne (total_costs m) 0 = true ->
     roi m = (net_benefits m / total_costs m * 100)%float).
Proof.
  intros H Hp.
  destruct (roi_metrics_valid i p (validate_non_negative i H) Hp)
    as (m & Hm & _ & _ & _ & _ & _ & Hroi).
  exists m. split; [exact Hm|]. split; [exact (calculate_of_metrics i m Hm)|].
  intros Hnz. rewrite Hnz in Hroi. exact Hroi.
Qed.

Lemma C4_roi_formula_witness :
  non_negative_input scenario_B /\
  Py.as_float (people_removed scenario_B) = Ok 5%float /\
  exists m,
    roi_metrics scenario_B = Ok m /\
    Py.ne (total_costs m) 0 = true /\
    roi m = (425000 / 155000 * 100)%float.
Proof.
  split; [concrete_input|]. split; [reflexivity|].
  destruct (C4_roi_formula scenario_B 5 ltac:(concrete_input) eq_refl)
    as (m & Hm & _ & Hroi).
  exists m. split; [exact Hm|].
  assert (Hc : Py.ne (total_costs m) 0 = true).
  { vm_compute in Hm. injection Hm as <-. reflexivity. }
  split; [exact Hc|]. rewrite (Hroi Hc).
  vm_compute in Hm. injection Hm as <-. reflexivity.
Defined.

(** C5. For every non-negative input whose [people_removed] converts, the
    call returns, its net benefits are the one float subtraction
    total_benefits - total_costs, and that very value, with no rounding
    step in between, is what the output record formats under
    "Net Benefits". *)
Theorem C5_net_benefits i p :
  non_negative_input i ->
  Py.as_float (people_removed i) = Ok p ->
  exists m,
    roi_metrics i = Ok m /\
    calculate_roi_agentiq i = Ok (format_metrics m) /\
    net_benefits m = (total_benefits m - total_costs m)%float /\
    get "Net Benefits" (format_metrics m) =
    Some (Format.comma_2f (total_benefits m - total_costs m)%float).
Proof.
  intros H Hp.
  destruct (roi_metrics_valid i p (validate_non_negative i H) Hp)
    as (m & Hm & _ & _ & _ & _ & Hnb & _).
  exists m. split; [exact Hm|]. split; [exact (calculate_of_metrics i m Hm)|].
  split; [exact Hnb|].
  unfold get, format_metrics.
  cbn [find fst snd String.eqb Ascii.eqb Bool.eqb option_map].
  rewrite Hnb. reflexivity.
Qed.

Lemma C5_net_benefits_witness :
  non_negative_input scenario_B /\
  Py.as_float (people_removed scenario_B) = Ok 5%float /\
  exists m,
    roi_metrics scenario_B = Ok m /\
    calculate_roi_agentiq scenario_B = Ok (format_metrics m) /\
    net_benefits m = (total_benefits m - total_costs m)%float /\
    get "Net Benefits" (format_metrics m) =
    Some (Format.comma_2f (total_benefits m - total_costs m)%float).
Proof.
  split; [concrete_input|]. split; [reflexivity|].
  apply (C5_net_benefits scenario_B 5). - concrete_input. - reflexivity.
Defined.

(** C8. On scenario B the call returns with time_saved_value = 100000,
    people_cost_reduction = 300000, total_benefits = 580000,
    total_costs = 155000, net_benefits = 425000 and an ROI of
    274.19354838709677, which lies within 0.005 of 274.19 and prints as
    "274.19". *)
Theorem C8_scenario_B :
  exists m,
    roi_metrics scenario_B = Ok m /\
    time_saved_value m = 100000%float /\
    people_cost_reduction m = 300000%float /\
    total_benefits m = 580000%float /\
    total_costs m = 155000%float /\
    net_benefits m = 425000%float /\
    roi m = 274.19354838709677%float /\
    (274.185 <? roi m)%float = true /\ (roi m <? 274.195)%float = true /\
    calculate_roi_agentiq scenario_B =
    Ok [ ("Total Benefits", "580,000.00"); ("Total Costs", "155,000.00");
         ("Net Benefits", "425,000.00"); ("ROI (%)", "274.19");
         ("People Cost Reduction", "300,000.00");
         ("Time Saved Value", "100,000.00") ].
Proof.
  eexists. split; [vm_compute; reflexivity|].
  cbn [time_saved_value people_cost_reduction total_benefits total_costs
       net_benefits roi].
  repeat split; vm_compute; reflexivity.
Qed.

(** C10, as the code has it.  The count of people removed need not be an
    integer: for every non-negative number [n] within the range of
    binary64, that is every non-negative float, 2.5 included, and every
    [int] from 0 to below [2^1024 - 2^970], put in that field beside twelve
    other non-negative fields, the call returns and
    people_cost_reduction = p * average_salary for the float [p] that [n]
    stands for.  On an [int] from [2^1024 - 2^970] on, the call fails with
    [OverflowError]. *)
Theorem C10_people_removed_any_number n i :
  non_negative_number n = true ->
  (forall y, In y (checked_params i) -> non_negative y = true) ->
  (in_float_range n = true ->
   exists p m,
     Py.as_float n = Ok p /\
     roi_metrics (with_people_removed n i) = Ok m /\
     calculate_roi_agentiq (with_people_removed n i) = Ok (format_metrics m) /\
     people_cost_reduction m = (p * average_salary i)%float) /\
  (in_float_range n = false ->
   calculate_roi_agentiq (with_people_removed n i) =
   Raise (OverflowError "int too large to convert to float")) /\
  (forall x, n = Float x ->
   exists m,
     roi_metrics (with_people_removed n i) = Ok m /\
     people_cost_reduction m = (x * average_salary i)%float).
Proof.
  intros Hn H.
  assert (H' : non_negative_input (with_people_removed n i)).
  { intros y Hy. apply in_fields in Hy.
    destruct Hy as [->|(x & -> & Hx)]; [exact Hn|].
    apply H. exact Hx. }
  pose proof (validate_non_negative _ H') as Hv.
  assert (Hin : in_float_range n = true ->
                exists p m,
                  Py.as_float n = Ok p /\
                  roi_metrics (with_people_removed n i) = Ok m /\
                  calculate_roi_agentiq (with_people_removed n i) =
                  Ok (format_metrics m) /\
                  people_cost_reduction m = (p * average_salary i)%float).
  { intros Hr. apply as_float_ok_iff in Hr. destruct Hr as [p Hp].
    destruct (roi_metrics_valid _ p Hv Hp) as (m & Hm & _ & Hpcr & _).
    exists p, m. split; [exact Hp|]. split; [exact Hm|].
    split; [exact (calculate_of_metrics _ m Hm)|exact Hpcr]. }
  split; [exact Hin|]. split.
  - intros Hr. apply as_float_raises_iff in Hr. destruct Hr as [e He].
    destruct (as_float_raises _ _ He) as [-> _].
    apply conversion_fails_calculate; assumption.
  - intros x ->. destruct (Hin eq_refl) as (p & m & Hp & Hm & _ & Hpcr).
    injection Hp as <-. exists m. split; assumption.
Qed.

Lemma C10_people_removed_any_number_witness :
  non_negative_number (Float 2.5) = true /\
  (forall y, In y (checked_params scenario_B) -> non_negative y = true) /\
  in_float_range (Float 2.5) = true /\
  exists m,
    roi_metrics (with_people_removed (Float 2.5) scenario_B) = Ok m /\
    people_cost_reduction m = 150000%float.
Proof.
  assert (H : forall y, In y (checked_params scenario_B) -> non_negative y = true).
  { intros y Hy. cbn in Hy.
    repeat (destruct Hy as [<-|Hy]; [reflexivity|]). destruct Hy. }
  split; [reflexivity|]. split; [exact H|]. split; [reflexivity|].
  destruct (C10_people_removed_any_number (Float 2.5) scenario_B eq_refl H)
    as (_ & _ & Hx).
  exact (Hx 2.5%float eq_refl).
Defined.

(** C10 as stated fails: 2^1024 is a non-negative number of people
    removed, the twelve other fields of scenario B are non-negative, and
    the call raises [OverflowError]. *)
Lemma C10_counterexample :
  non_negative_number beyond_binary64 = true /\
  (forall y, In y (checked_params scenario_B) -> non_negative y = true) /\
  calculate_roi_agentiq (with_people_removed beyond_binary64 scenario_B) =
  Raise (OverflowError "int too large to convert to float").
Proof.
  split; [reflexivity|]. split.
  - intros y Hy. cbn in Hy.
    repeat (destruct Hy as [<-|Hy]; [reflexivity|]). destruct Hy.
  - vm_compute. reflexivity.
Qed.

(** ** The ROI against -100 *)

Lemma negative_false_nonneg x :
  negative x = false -> Bounds.nonneg (Prim2SF x).
Proof.
  unfold negative, Py.lt. rewrite ltb_spec.
  apply BoundsFacts.not_ltb_zero_nonneg.
Qed.

Lemma nonneg_prim_add x y :
  Bounds.nonneg (Prim2SF x) -> Bounds.nonneg (Prim2SF y) ->
  Bounds.nonneg (Prim2SF (x + y)).
Proof. rewrite add_spec. apply BoundsFacts.nonneg_add. Qed.

Lemma nonneg_prim_mul x y :
  Bounds.nonneg (Prim2SF x) -> Bounds.nonneg (Prim2SF y) ->
  Bounds.nonneg (Prim2SF (x * y)).
Proof. rewrite mul_spec. apply BoundsFacts.nonneg_mul. Qed.

(** What passes validation is not below zero: the twelve floats, and the
    float that [people_removed] stands for. *)
Lemma checked_params_nonneg i :
  validate i = Ok tt ->
  forall x, In x (checked_params i) -> Bounds.nonneg (Prim2SF x).
Proof.
  intros Hv x Hx. rewrite validate_ok_iff in Hv.
  apply negative_false_nonneg. apply (Hv (Float x)).
  apply in_fields. eauto.
Qed.

Lemma as_float_nonneg n p :
  negative_number n = false -> Py.as_float n = Ok p ->
  Bounds.nonneg (Prim2SF p).
Proof.
  destruct n as [z|x]; cbn [negative_number Py.lt_zero Py.as_float].
  - intros Hz. apply int_as_float_nonneg. apply Z.ltb_ge, Hz.
  - intros Hx H. injection H as <-. apply negative_false_nonneg, Hx.
Qed.

Lemma people_removed_nonneg i p :
  validate i = Ok tt -> Py.as_float (people_removed i) = Ok p ->
  Bounds.nonneg (Prim2SF p).
Proof.
  intros Hv. rewrite validate_ok_iff in Hv.
  apply as_float_nonneg, Hv, in_fields. tauto.
Qed.

(** A call that returns has converted [people_removed]. *)
Lemma roi_metrics_ok_converts i m :
  roi_metrics i = Ok m -> exists p, Py.as_float (people_removed i) = Ok p.
Proof.
  unfold roi_metrics, Py.mul_number.
  destruct (validate i); [|discriminate]. cbn [bind].
  destruct (Py.as_float (people_removed i)) as [p|e]; [eauto|discriminate].
Qed.

(** The benefits of an input that passes validation are not below zero. *)
Lemma total_benefits_nonneg i m :
  validate i = Ok tt -> roi_metrics i = Ok m ->
  Bounds.nonneg (Prim2SF (total_benefits m)).
Proof.
  intros Hv Hm. destruct (roi_metrics_ok_converts i m Hm) as [p Hp].
  destruct (roi_metrics_valid i p Hv Hp) as (m' & Hm' & Htsv & Hpcr & Htb & _).
  rewrite Hm in Hm'. injection Hm' as <-.
  pose proof (people_removed_nonneg i p Hv Hp) as Hpn.
  pose proof (checked_params_nonneg i Hv) as F.
  unfold checked_params in F. cbn [In] in F.
  rewrite Htb, Htsv, Hpcr. unfold Py.add, Py.mul.
  repeat first [apply nonneg_prim_add | apply nonneg_prim_mul];
    solve [exact Hpn | apply F; tauto].
Qed.

Lemma positive_cases x :
  (0 <? x)%float = true ->
  (exists m e, Prim2SF x = S754_finite false m e) \/
  Prim2SF x = S754_infinity false.
Proof.
  rewrite ltb_spec. change (Prim2SF 0) with (S754_zero false).
  destruct (Prim2SF x) as [s|[]| |[] m e]; cbv [SFltb SFcompare];
    try discriminate; eauto.
Qed.

Lemma prim_nan_is_nan x : Prim2SF x = S754_nan -> is_nan x = true.
Proof.
  intros H. unfold is_nan. rewrite eqb_spec, H. reflexivity.
Qed.

Lemma roi_ge_opp tb tc :
  Bounds.nonneg (Prim2SF tb) -> (0 <? tc)%float = true ->
  Bounds.ge_opp (Prim2SF ((tb - tc) / tc * 100)) 7036874417766400 (-46).
Proof.
  intros Htb Htc.
  rewrite mul_spec, div_spec, sub_spec.
  change (Prim2SF 100) with (S754_finite false 7036874417766400 (-46)).
  pose proof (Prim2SF_valid tc) as Hv.
  destruct (positive_cases tc Htc) as [(m & e & E)|E]; rewrite E in *.
  - apply BoundsFacts.mul_ge_opp; [|reflexivity].
    apply BoundsFacts.div_ge_opp; [|exact Hv].
    apply BoundsFacts.sub_ge_opp; assumption.
  - destruct (Prim2SF tb) as [s|[]| |[] mb eb]; cbn in Htb |- *;
      solve [exact I | contradiction].
Qed.

Lemma roi_exact_of_zero_benefits tb tc :
  (tb =? 0)%float = true ->
  (0 <? tc)%float = true -> (tc <? infinity)%float = true ->
  ((tb - tc) / tc * 100)%float = (-100)%float.
Proof.
  intros Htb Hpos Hfin.
  assert (E1 : ((tb - tc) / tc)%float = (-1)%float).
  { apply Prim2SF_inj. rewrite div_spec, sub_spec.
    rewrite eqb_spec in Htb. rewrite ltb_spec in Hfin.
    change (Prim2SF 0) with (S754_zero false) in Htb.
    change (Prim2SF infinity) with (S754_infinity false) in Hfin.
    destruct (positive_cases tc Hpos) as [(m & e & E)|E]; rewrite E in *;
      [|discriminate].
    destruct (Prim2SF tb) as [s|[]| |[] mb eb]; try discriminate.
    cbn [SF64sub SFsub negb]. rewrite BoundsFacts.div_self. reflexivity. }
  rewrite E1. reflexivity.
Qed.

(** C9, as the code has it.  For every non-negative input whose
    [people_removed] converts, the call returns;
    when its total costs are strictly positive, the ROI is never below -100:
    it is a NaN (as when both totals have overflowed) or at least -100; and
    when the total benefits are zero and the total costs finite, the ROI is
    exactly -100. *)
Theorem C9_roi_lower_bound i p :
  non_negative_input i ->
  Py.as_float (people_removed i) = Ok p ->
  exists m,
    roi_metrics i = Ok m /\
    ((0 <? total_costs m)%float = true ->
     (roi m <? -100)%float = false /\
     (is_nan (roi m) = true \/ (-100 <=? roi m)%float = true) /\
     ((total_benefits m =? 0)%float = true ->
      (total_costs m <? infinity)%float = true ->
      roi m = (-100)%float)).
Proof.
  intros H Hp. pose proof (validate_non_negative i H) as Hv.
  destruct (roi_metrics_valid i p Hv Hp)
    as (m & Hm & _ & _ & _ & _ & Hnb & Hroi).
  exists m. split; [exact Hm|]. intros Hpos.
  pose proof (total_benefits_nonneg i m Hv Hm) as Htb.
  assert (Hne : Py.ne (total_costs m) 0 = true).
  { unfold Py.ne. rewrite eqb_spec. rewrite ltb_spec in Hpos.
    change (Prim2SF 0) with (S754_zero false) in *.
    destruct (Prim2SF (total_costs m)) as [s|[]| |[] mc ec];
      try discriminate; reflexivity. }
  rewrite Hne, Hnb in Hroi. unfold Py.mul, Py.sub in Hroi.
  pose proof (roi_ge_opp _ _ Htb Hpos) as Hge. rewrite <- Hroi in Hge.
  split; [|split].
  - rewrite ltb_spec.
    change (Prim2SF (-100)) with (S754_finite true 7036874417766400 (-46)).
    apply BoundsFacts.ge_opp_not_ltb, Hge.
  - destruct (BoundsFacts.ge_opp_leb _ _ _ Hge) as [E|E].
    + left. apply prim_nan_is_nan, E.
    + right. rewrite leb_spec.
      change (Prim2SF (-100)) with (S754_finite true 7036874417766400 (-46)).
      exact E.
  - intros Hz Hfin. rewrite Hroi.
    apply roi_exact_of_zero_benefits; assumption.
Qed.

Lemma C9_roi_lower_bound_witness :
  non_negative_input costs_only /\
  Py.as_float (people_removed costs_only) = Ok 0%float /\
  exists m,
    roi_metrics costs_only = Ok m /\
    (0 <? total_costs m)%float = true /\
    (total_benefits m =? 0)%float = true /\
    (total_costs m <? infinity)%float = true /\
    (roi m <? -100)%float = false /\
    roi m = (-100)%float.
Proof.
  split; [concrete_input|]. split; [reflexivity|].
  destruct (C9_roi_lower_bound costs_only 0 ltac:(concrete_input) eq_refl)
    as (m & Hm & Hb).
  exists m. split; [exact Hm|].
  assert (Hc : (0 <? total_costs m)%float = true /\
               (total_benefits m =? 0)%float = true /\
               (total_costs m <? infinity)%float = true).
  { vm_compute in Hm. injection Hm as <-. repeat split. }
  destruct Hc as (Hpos & Hz & Hfin).
  destruct (Hb Hpos) as (Hlt & _ & Hex).
  repeat split; try assumption. exact (Hex Hz Hfin).
Defined.

(** C9 as stated fails twice.  With one dollar of benefit against costs of
    1e17 the subtraction rounds to minus the costs, so the ROI is exactly
    -100 although the benefits are not zero; and when both totals overflow,
    the ROI is a NaN, which is not at least -100. *)
Lemma C9_counterexample :
  (non_negative_input absorbed_benefit /\
   exists m,
     roi_metrics absorbed_benefit = Ok m /\
     (0 <? total_costs m)%float = true /\
     roi m = (-100)%float /\
     (total_benefits m =? 0)%float = false) /\
  (non_negative_input overflowing_both /\
   exists m,
     roi_metrics overflowing_both = Ok m /\
     (0 <? total_costs m)%float = true /\
     (-100 <=? roi m)%float = false).
Proof.
  split; (split; [concrete_input|]);
    (eexists; split; [vm_compute; reflexivity|]);
    repeat split.
Qed.

(** ** The shape of a formatted amount *)

Lemma is_digit_digit_char d : (d < 10)%N -> Format.is_digit (Format.digit_char d) = true.
Proof.
  intros H. unfold Format.is_digit, Format.digit_char.
  rewrite N_ascii_embedding by lia.
  apply andb_true_intro. split; apply N.leb_le; lia.
Qed.

Lemma is_digit_not_percent c : Format.is_digit c = true -> Ascii.eqb c "%" = false.
Proof.
  intros H. destruct (Ascii.eqb_spec c "%") as [->|]; [discriminate H|reflexivity].
Qed.

Lemma uint_chars_digits d :
  forallb Format.is_digit
    (list_ascii_of_string (DecimalString.NilEmpty.string_of_uint d)) = true.
Proof.
  induction d; cbn [DecimalString.NilEmpty.string_of_uint list_ascii_of_string forallb];
    rewrite ?IHd; reflexivity.
Qed.

Lemma digits_all n : forallb Format.is_digit (Format.digits n) = true.
Proof.
  unfold Format.digits, DecimalString.NilZero.string_of_uint.
  destruct (N.to_uint n); try apply uint_chars_digits. reflexivity.
Qed.

Lemma digits_nonempty n : Format.digits n <> [].
Proof.
  unfold Format.digits, DecimalString.NilZero.string_of_uint.
  destruct (N.to_uint n); discriminate.
Qed.

Lemma grouped_rev_group_rev n : forall l : list ascii,
  (List.length l <= n)%nat -> l <> [] -> forallb Format.is_digit l = true ->
  Format.grouped_rev (Format.group_rev l) = true.
Proof.
  induction n as [|n IH]; intros l Hlen Hne Hd.
  - destruct l; [congruence|cbn in Hlen; lia].
  - destruct l as [|a [|b [|c [|d rest]]]]; [congruence| | | |];
      cbn [forallb] in Hd; rewrite ?andb_true_iff in Hd.
    + cbn [Format.group_rev Format.grouped_rev]. tauto.
    + cbn [Format.group_rev Format.grouped_rev]. apply andb_true_intro; tauto.
    + cbn [Format.group_rev Format.grouped_rev]. rewrite !andb_true_iff; tauto.
    + destruct Hd as (Ha & Hb & Hc & Hd & Hrest).
      change (Format.group_rev (a :: b :: c :: d :: rest))
        with (a :: b :: c :: ","%char :: Format.group_rev (d :: rest)).
      change (Format.grouped_rev
                (a :: b :: c :: ","%char :: Format.group_rev (d :: rest)))
        with (Format.is_digit a && Format.is_digit b && Format.is_digit c
              && Ascii.eqb "," "," && Format.grouped_rev (Format.group_rev (d :: rest))).
      rewrite Ha, Hb, Hc. cbn [andb Ascii.eqb Bool.eqb].
      apply IH; [cbn in Hlen |- *; lia|discriminate|].
      cbn [forallb]. rewrite Hd, Hrest. reflexivity.
Qed.

Lemma list_ascii_of_string_app s1 s2 :
  list_ascii_of_string (s1 ++ s2) =
  (list_ascii_of_string s1 ++ list_ascii_of_string s2)%list.
Proof. induction s1; cbn; [reflexivity|now rewrite IHs1]. Qed.

Lemma rev_fixed2 h :
  rev (list_ascii_of_string (Format.fixed2 h)) =
  Format.digit_char (h mod 100 mod 10) :: Format.digit_char (h mod 100 / 10)
  :: "."%char :: Format.group_rev (rev (Format.digits (h / 100))).
Proof.
  unfold Format.fixed2, Format.two_digits, Format.group.
  rewrite list_ascii_of_string_of_list_ascii, rev_app_distr.
  cbn [rev app]. rewrite rev_involutive. reflexivity.
Qed.

Lemma unsigned_decimal_fixed2 h :
  Format.unsigned_decimal (list_ascii_of_string (Format.fixed2 h)) = true.
Proof.
  unfold Format.unsigned_decimal. rewrite rev_fixed2.
  assert (H100 : (h mod 100 < 100)%N) by (apply N.mod_lt; discriminate).
  rewrite !is_digit_digit_char.
  - cbn [andb Ascii.eqb Bool.eqb].
    apply (grouped_rev_group_rev (List.length (rev (Format.digits (h / 100))))).
    + apply Nat.le_refl.
    + intros E. apply (f_equal (@rev ascii)) in E.
      rewrite rev_involutive in E. exact (digits_nonempty _ E).
    + rewrite forallb_forall. intros c Hc. apply In_rev in Hc.
      pose proof (digits_all (h / 100)) as Hall.
      rewrite forallb_forall in Hall. apply Hall, Hc.
  - apply N.Div0.div_lt_upper_bound. exact H100.
  - apply N.mod_lt; discriminate.
Qed.

Lemma fixed2_head h :
  exists c l, list_ascii_of_string (Format.fixed2 h) = c :: l.
Proof.
  pose proof (rev_fixed2 h) as H.
  destruct (list_ascii_of_string (Format.fixed2 h)) as [|c l]; [discriminate H|eauto].
Qed.

Lemma grouped_decimal_signed s h :
  Format.grouped_decimal (Format.sign s ++ Format.fixed2 h) = true.
Proof.
  unfold Format.grouped_decimal. rewrite list_ascii_of_string_app.
  pose proof (unsigned_decimal_fixed2 h) as Hu.
  destruct s; cbn [Format.sign list_ascii_of_string app].
  - rewrite Hu. cbn [Ascii.eqb Bool.eqb andb]. apply orb_true_r.
  - destruct (fixed2_head h) as (c & l & E). rewrite E in *.
    rewrite Hu. reflexivity.
Qed.

Lemma percent_suffix_signed s h :
  Format.percent_suffix (Format.sign s ++ Format.fixed2 h) = false.
Proof.
  unfold Format.percent_suffix.
  rewrite list_ascii_of_string_app, rev_app_distr, rev_fixed2.
  cbn [app]. apply is_digit_not_percent, is_digit_digit_char.
  apply N.mod_lt; discriminate.
Qed.

(** What [f"{x:,.2f}"] prints, by the kind of [x]. *)
Lemma comma_2f_shape x :
  (if Format.is_finite x then Format.grouped_decimal (Format.comma_2f x) = true
   else In (Format.comma_2f x) ["inf"; "-inf"; "nan"]) /\
  Format.percent_suffix (Format.comma_2f x) = false.
Proof.
  unfold Format.is_finite, Format.comma_2f.
  destruct (Prim2SF x) as [[]|[]| |s m e]; cbn [In];
    try (split; [|reflexivity]; solve [reflexivity | tauto]).
  split; [apply grouped_decimal_signed|apply percent_suffix_signed].
Qed.

(** C7, as the code has it.  For every non-negative input whose
    [people_removed] converts, the call returns
    the six entries, each the formatting of its metric: a decimal with
    thousands separators and exactly two fraction digits when the metric is
    finite, and "inf", "-inf" or "nan" when the metric has overflowed to an
    infinity or is a NaN.  No entry, the ROI included, ends in "%". *)
Theorem C7_formatted_entries i p :
  non_negative_input i ->
  Py.as_float (people_removed i) = Ok p ->
  exists m,
    roi_metrics i = Ok m /\
    calculate_roi_agentiq i = Ok (format_metrics m) /\
    map fst (format_metrics m) =
      [ "Total Benefits"; "Total Costs"; "Net Benefits"; "ROI (%)";
        "People Cost Reduction"; "Time Saved Value" ] /\
    map snd (format_metrics m) = map Format.comma_2f (metric_values m) /\
    (forall x, In x (metric_values m) ->
       (if Format.is_finite x
        then Format.grouped_decimal (Format.comma_2f x) = true
        else In (Format.comma_2f x) ["inf"; "-inf"; "nan"]) /\
       Format.percent_suffix (Format.comma_2f x) = false) /\
    get "ROI (%)" (format_metrics m) = Some (Format.comma_2f (roi m)).
Proof.
  intros H Hp.
  destruct (roi_metrics_valid i p (validate_non_negative i H) Hp)
    as (m & Hm & _).
  exists m. split; [exact Hm|]. split; [exact (calculate_of_metrics i m Hm)|].
  repeat split; try reflexivity; apply comma_2f_shape.
Qed.

Lemma C7_formatted_entries_witness :
  non_negative_input scenario_B /\
  Py.as_float (people_removed scenario_B) = Ok 5%float /\
  exists m,
    roi_metrics scenario_B = Ok m /\
    forallb Format.is_finite (metric_values m) = true /\
    forallb Format.grouped_decimal (map snd (format_metrics m)) = true /\
    map snd (format_metrics m) =
      [ "580,000.00"; "155,000.00"; "425,000.00"; "274.19"; "300,000.00";
        "100,000.00" ].
Proof.
  split; [concrete_input|]. split; [reflexivity|].
  destruct (C7_formatted_entries scenario_B 5 ltac:(concrete_input) eq_refl)
    as (m & Hm & _ & _ & Hsnd & Hall & _).
  exists m. split; [exact Hm|].
  assert (Hfin : forallb Format.is_finite (metric_values m) = true).
  { vm_compute in Hm. injection Hm as <-. vm_compute. reflexivity. }
  split; [exact Hfin|]. split.
  - rewrite Hsnd, forallb_forall. intros v Hv.
    apply in_map_iff in Hv. destruct Hv as (x & <- & Hx).
    rewrite forallb_forall in Hfin.
    pose proof (proj1 (Hall x Hx)) as Hs. rewrite (Hfin x Hx) in Hs. exact Hs.
  - vm_compute in Hm. injection Hm as <-. vm_compute. reflexivity.
Defined.

(** C7 as stated fails when a metric overflows: two benefits of 1e308 sum
    to an infinity, and the entries read "inf", not a decimal. *)
Lemma C7_counterexample :
  non_negative_input overflowing_benefits /\
  calculate_roi_agentiq overflowing_benefits =
  Ok [ ("Total Benefits", "inf"); ("Total Costs", "80,000.00");
       ("Net Benefits", "inf"); ("ROI (%)", "inf");
       ("People Cost Reduction", "0.00"); ("Time Saved Value", "0.00") ] /\
  Format.grouped_decimal "inf" = false.
Proof.
  split; [concrete_input|]. split; vm_compute; reflexivity.
Qed.

(** * Further properties of the code *)

(** ** Which of the two messages a failing call carries *)

(** X1. The first validation statement wins: the call fails with "Inputs
    must be non-negative values." exactly when one of the twelve parameters
    of lines 57 to 60 is negative, whatever [people_removed] is, and with
    "Number of people removed cannot be negative." exactly when none of
    them is negative and [people_removed] is. *)
Theorem validation_message_precedence i :
  (calculate_roi_agentiq i =
     Raise (ValueError "Inputs must be non-negative values.") <->
   exists x, In x (checked_params i) /\ negative x = true) /\
  (calculate_roi_agentiq i =
     Raise (ValueError "Number of people removed cannot be negative.") <->
   (forall x, In x (checked_params i) -> negative x = false) /\
   negative_number (people_removed i) = true).
Proof.
  assert (Hv : forall msg, calculate_roi_agentiq i = Raise (ValueError msg) <->
                           validate i = Raise (ValueError msg)).
  { intros msg. split; [|apply validate_raise_calculate].
    intros H. destruct (calculate_raises i _ H) as [Hr|[_ Hr]]; [exact Hr|].
    destruct (as_float_raises _ _ Hr) as [Hr' _]. discriminate. }
  rewrite !Hv. unfold validate, Py.any.
  destruct (existsb _ (checked_params i)) eqn:E.
  - apply existsb_exists in E. destruct E as (x & Hx & Hneg).
    split; split; try (intros _; eauto; reflexivity); try discriminate.
    intros [Hall _]. unfold negative in Hall. rewrite (Hall x Hx) in Hneg.
    discriminate.
  - assert (Hall : forall x, In x (checked_params i) -> negative x = false).
    { intros x Hx. destruct (negative x) eqn:Hneg; [|reflexivity].
      assert (existsb (fun param => Py.lt param 0) (checked_params i) = true)
        by (apply existsb_exists; eauto).
      congruence. }
    fold (negative_number (people_removed i)).
    destruct (negative_number (people_removed i)) eqn:Ep; split; split;
      try discriminate; try (intros; split; [exact Hall|reflexivity]);
      try reflexivity.
    + intros (x & Hx & Hneg). rewrite (Hall x Hx) in Hneg. discriminate.
    + intros (x & Hx & Hneg). rewrite (Hall x Hx) in Hneg. discriminate.
    + intros [_ H]. discriminate.
Qed.

(** ** Signs of the metrics *)

Lemma nonneg_not_negative x :
  Bounds.nonneg (Prim2SF x) -> negative x = false.
Proof.
  unfold negative, Py.lt. rewrite ltb_spec.
  change (Prim2SF 0) with (S754_zero false).
  destruct (Prim2SF x) as [s|[]| |[] m e]; cbv [SFltb SFcompare Bounds.nonneg];
    solve [reflexivity | contradiction].
Qed.

(** X2. On every input that passes validation and whose [people_removed]
    converts, the two products and the two totals are never negative. *)
Theorem totals_never_negative i p :
  (forall n, In n (fields i) -> negative_number n = false) ->
  Py.as_float (people_removed i) = Ok p ->
  exists m,
    roi_metrics i = Ok m /\
    negative (time_saved_value m) = false /\
    negative (people_cost_reduction m) = false /\
    negative (total_benefits m) = false /\
    negative (total_costs m) = false.
Proof.
  intros H Hp. pose proof H as Hv. apply validate_ok_iff in Hv.
  destruct (roi_metrics_valid i p Hv Hp)
    as (m & Hm & Htsv & Hpcr & Htb & Htc & _).
  exists m. split; [exact Hm|].
  pose proof (people_removed_nonneg i p Hv Hp) as Hpn.
  pose proof (checked_params_nonneg i Hv) as F.
  unfold checked_params in F. cbn [In] in F.
  repeat split; apply nonneg_not_negative.
  - rewrite Htsv. apply nonneg_prim_mul; apply F; tauto.
  - rewrite Hpcr. apply nonneg_prim_mul; [exact Hpn|apply F; tauto].
  - exact (total_benefits_nonneg i m Hv Hm).
  - rewrite Htc. unfold Py.add.
    repeat apply nonneg_prim_add; apply F; tauto.
Qed.

Lemma totals_never_negative_witness :
  (forall n, In n (fields scenario_B) -> negative_number n = false) /\
  Py.as_float (people_removed scenario_B) = Ok 5%float /\
  exists m,
    roi_metrics scenario_B = Ok m /\
    negative (time_saved_value m) = false /\
    negative (people_cost_reduction m) = false /\
    negative (total_benefits m) = false /\
    negative (total_costs m) = false.
Proof.
  assert (H : forall n, In n (fields scenario_B) -> negative_number n = false).
  { intros x Hx. cbn in Hx.
    repeat (destruct Hx as [<-|Hx]; [reflexivity|]). destruct Hx. }
  split; [exact H|]. split; [reflexivity|].
  exact (totals_never_negative scenario_B 5 H eq_refl).
Defined.

Lemma totals_never_negative_aux i m :
  validate i = Ok tt -> roi_metrics i = Ok m ->
  Bounds.nonneg (Prim2SF (total_costs m)).
Proof.
  intros Hv Hm. destruct (roi_metrics_ok_converts i m Hm) as [p Hp].
  destruct (roi_metrics_valid i p Hv Hp) as (m' & Hm' & _ & _ & _ & Htc & _).
  rewrite Hm in Hm'. injection Hm' as <-.
  pose proof (checked_params_nonneg i Hv) as F.
  unfold checked_params in F. cbn [In] in F.
  rewrite Htc. unfold Py.add.
  repeat apply nonneg_prim_add; apply F; tauto.
Qed.

(** The quotient and the product of line 76 keep the sign of the dividend
    when the divisor is a positive number or [+inf]. *)
Lemma roi_sign nb tc :
  match tc with
  | S754_finite false _ _ | S754_infinity false => True
  | _ => False
  end ->
  let r := SF64mul (SF64div nb tc) (S754_finite false 7036874417766400 (-46)) in
  (SFltb (S754_zero false) r = true -> SFltb (S754_zero false) nb = true) /\
  (SFltb r (S754_zero false) = true -> SFltb nb (S754_zero false) = true) /\
  (SFeqb nb (S754_zero false) = true -> SFeqb r (S754_zero false) = true).
Proof.
  intros Htc r.
  assert (Hmul : forall s q, Bounds.has_sign s q ->
            Bounds.has_sign s
              (SF64mul q (S754_finite false 7036874417766400 (-46)))).
  { intros s [s'|s'| |s' m e]; cbn; intros Hs; subst;
      rewrite ?xorb_false_r; try reflexivity.
    apply BoundsFacts.binary_round_aux_sign. }
  assert (Hsign : forall s x, Bounds.has_sign s x ->
            (SFltb (S754_zero false) x = true -> s = false) /\
            (SFltb x (S754_zero false) = true -> s = true)).
  { intros s [s'|s'| |s' m e]; cbn; intros Hs; subst;
      destruct s; split; intros; congruence. }
  destruct tc as [st|[]| |[] mc ec]; try contradiction;
    destruct nb as [sn|sn| |sn mn en]; subst r;
    try (cbn; repeat split; intros; solve [discriminate | reflexivity]);
    try (destruct sn; cbn; repeat split; intros;
         solve [discriminate | reflexivity]).
  assert (Hq : Bounds.has_sign sn
                 (SF64div (S754_finite sn mn en) (S754_finite false mc ec))).
  { unfold SF64div, SFdiv.
    destruct (SFdiv_core_binary _ _ _ _ _ _) as [[mz ez] lz].
    rewrite xorb_false_r. apply BoundsFacts.binary_round_aux_sign. }
  destruct (Hsign _ _ (Hmul _ _ Hq)) as [Hp Hn].
  repeat split.
  - intros H. rewrite (Hp H). reflexivity.
  - intros H. rewrite (Hn H). reflexivity.
  - destruct sn; discriminate.
Qed.

(** X3. On every input that passes validation and whose [people_removed]
    converts, the ROI has the sign of the net benefits: it is positive only
    if they are, negative only if they are, and zero whenever they are
    zero. *)
Theorem roi_sign_follows_net_benefits i p :
  (forall n, In n (fields i) -> negative_number n = false) ->
  Py.as_float (people_removed i) = Ok p ->
  exists m,
    roi_metrics i = Ok m /\
    ((0 <? roi m)%float = true -> (0 <? net_benefits m)%float = true) /\
    ((roi m <? 0)%float = true -> (net_benefits m <? 0)%float = true) /\
    ((net_benefits m =? 0)%float = true -> (roi m =? 0)%float = true).
Proof.
  intros H Hp. pose proof H as Hv. apply validate_ok_iff in Hv.
  destruct (roi_metrics_valid i p Hv Hp)
    as (m & Hm & _ & _ & _ & _ & Hnb & Hroi).
  exists m. split; [exact Hm|].
  pose proof (totals_never_negative_aux i m Hv Hm) as Htc.
  destruct (Py.ne (total_costs m) 0) eqn:Hne.
  - rewrite Hroi. unfold Py.mul.
    rewrite !ltb_spec, !eqb_spec, mul_spec, div_spec.
    change (Prim2SF 0) with (S754_zero false).
    change (Prim2SF 100) with (S754_finite false 7036874417766400 (-46)).
    unfold Py.ne in Hne. rewrite eqb_spec in Hne.
    change (Prim2SF 0) with (S754_zero false) in Hne.
    destruct (Prim2SF (total_costs m)) as [s|[]| |[] mc ec] eqn:Etc;
      try contradiction; try discriminate.
    + apply roi_sign. exact I.
    + assert (En : Prim2SF (net_benefits m) = S754_nan).
      { rewrite Hnb. unfold Py.sub. rewrite sub_spec, Etc.
        destruct (Prim2SF (total_benefits m)); reflexivity. }
      rewrite En. repeat split; discriminate.
    + apply roi_sign. exact I.
  - rewrite Hroi. repeat split; discriminate.
Qed.

(** ** Reading the formatted amounts back *)

Lemma remove_commas_of_list l :
  Parse.remove_commas (string_of_list_ascii l) =
  string_of_list_ascii (filter Parse.not_comma l).
Proof.
  induction l as [|c l IH]; [reflexivity|].
  cbn [string_of_list_ascii Parse.remove_commas filter]. unfold Parse.not_comma at 1.
  destruct (Ascii.eqb c ","); cbn [negb string_of_list_ascii]; now rewrite IH.
Qed.

Lemma is_digit_other c c' :
  Format.is_digit c = true -> Format.is_digit c' = false -> Ascii.eqb c c' = false.
Proof.
  intros H H'. destruct (Ascii.eqb_spec c c') as [->|]; congruence.
Qed.

Lemma filter_digits l :
  forallb Format.is_digit l = true -> filter Parse.not_comma l = l.
Proof.
  induction l as [|c l IH]; [reflexivity|].
  cbn [forallb filter]. rewrite andb_true_iff. intros [Hc Hl].
  unfold Parse.not_comma at 1. rewrite (is_digit_other c "," Hc eq_refl).
  cbn [negb]. now rewrite IH.
Qed.

Lemma filter_group_rev n : forall l : list ascii,
  (List.length l <= n)%nat -> forallb Format.is_digit l = true ->
  filter Parse.not_comma (Format.group_rev l) = l.
Proof.
  induction n as [|n IH]; intros l Hlen Hd.
  - destruct l; [reflexivity|cbn in Hlen; lia].
  - destruct l as [|a [|b [|c [|d rest]]]];
      try (cbn [Format.group_rev]; apply filter_digits, Hd).
    change (Format.group_rev (a :: b :: c :: d :: rest))
      with (a :: b :: c :: ","%char :: Format.group_rev (d :: rest)).
    cbn [forallb] in Hd. rewrite !andb_true_iff in Hd.
    destruct Hd as (Ha & Hb & Hc & Hd & Hrest).
    cbn [filter]. unfold Parse.not_comma at 1 2 3 4.
    rewrite (is_digit_other a "," Ha eq_refl), (is_digit_other b "," Hb eq_refl),
      (is_digit_other c "," Hc eq_refl).
    cbn [negb Ascii.eqb Bool.eqb andb].
    rewrite IH; [reflexivity|cbn in Hlen |- *; lia|].
    cbn [forallb]. now rewrite Hd, Hrest.
Qed.

Lemma filter_group l :
  forallb Format.is_digit l = true -> filter Parse.not_comma (Format.group l) = l.
Proof.
  intros H. unfold Format.group.
  rewrite <- (rev_involutive (filter _ _)), <- filter_rev, rev_involutive.
  rewrite (filter_group_rev (List.length (rev l))); [apply rev_involutive|lia|].
  rewrite forallb_forall in *. intros c Hc. apply H, in_rev, Hc.
Qed.

Lemma two_digits_all c :
  (c < 100)%N -> forallb Format.is_digit (Format.two_digits c) = true.
Proof.
  intros H. unfold Format.two_digits. cbn [forallb].
  rewrite !is_digit_digit_char; [reflexivity| |].
  - apply N.mod_lt. discriminate.
  - apply N.Div0.div_lt_upper_bound. exact H.
Qed.

(** The text of an amount once its commas are removed. *)
Lemma remove_commas_fixed2 h :
  Parse.remove_commas (Format.fixed2 h) =
  string_of_list_ascii (Format.digits (h / 100))
  ++ String "." (string_of_list_ascii (Format.two_digits (h mod 100))).
Proof.
  unfold Format.fixed2. rewrite remove_commas_of_list, filter_app.
  cbn [filter]. unfold Parse.not_comma at 2. cbn [Ascii.eqb Bool.eqb negb].
  rewrite filter_group by apply digits_all.
  rewrite filter_digits by (apply two_digits_all, N.mod_lt; discriminate).
  generalize (Format.digits (h / 100)) as l. intros l.
  induction l as [|c l IH]; cbn; [reflexivity|now rewrite IH].
Qed.

Lemma split_point_digits l rest :
  forallb Format.is_digit l = true ->
  Parse.split_point (string_of_list_ascii l ++ String "." rest) =
  (string_of_list_ascii l, Some rest).
Proof.
  induction l as [|c l IH]; [reflexivity|].
  cbn [forallb]. rewrite andb_true_iff. intros [Hc Hl].
  cbn [string_of_list_ascii append Parse.split_point].
  rewrite (is_digit_other c "." Hc eq_refl), (IH Hl). reflexivity.
Qed.

Lemma digits_value_digits n :
  Parse.digits_value (string_of_list_ascii (Format.digits n)) = Some n.
Proof.
  unfold Format.digits, Parse.digits_value.
  rewrite string_of_list_ascii_of_string.
  rewrite <- (DecimalN.Unsigned.of_to n) at 2.
  unfold DecimalString.NilZero.string_of_uint.
  destruct (N.to_uint n); try (rewrite DecimalString.NilEmpty.usu; reflexivity).
  reflexivity.
Qed.

Lemma digit_cases d :
  (d < 10)%N ->
  (d = 0 \/ d = 1 \/ d = 2 \/ d = 3 \/ d = 4 \/ d = 5 \/ d = 6 \/ d = 7
   \/ d = 8 \/ d = 9)%N.
Proof. lia. Qed.

Lemma digits_value_two_digits c :
  (c < 100)%N ->
  Parse.digits_value (string_of_list_ascii (Format.two_digits c)) = Some c.
Proof.
  intros H. unfold Format.two_digits.
  assert (Ha : (c / 10 < 10)%N) by (apply N.Div0.div_lt_upper_bound; exact H).
  assert (Hb : (c mod 10 < 10)%N) by (apply N.mod_lt; discriminate).
  rewrite (N.div_mod c 10) at 3 by discriminate.
  generalize dependent (c mod 10)%N. generalize dependent (c / 10)%N.
  intros a Ha b Hb.
  destruct (digit_cases a Ha) as [->|[->|[->|[->|[->|[->|[->|[->|[->| ->]]]]]]]]];
    destruct (digit_cases b Hb) as [->|[->|[->|[->|[->|[->|[->|[->|[->| ->]]]]]]]]];
    reflexivity.
Qed.

Lemma digits_head n :
  exists c l, Format.digits n = c :: l /\ Format.is_digit c = true.
Proof.
  pose proof (digits_all n) as H. pose proof (digits_nonempty n) as Hne.
  destruct (Format.digits n) as [|c l]; [congruence|].
  cbn [forallb] in H. apply andb_true_iff in H. exists c, l. tauto.
Qed.

(** An unsigned amount without its commas reads as its hundredths over a
    hundred. *)
Lemma magnitude_plain neg h :
  Parse.magnitude neg (Parse.remove_commas (Format.fixed2 h)) =
  Some (Parse.ratio neg h 100).
Proof.
  rewrite remove_commas_fixed2. unfold Parse.magnitude.
  destruct (digits_head (h / 100)) as (c & l & E & Hc).
  assert (Hne : forall t, String.eqb
            (string_of_list_ascii (Format.digits (h / 100)) ++ t) "inf" = false
          /\ String.eqb
            (string_of_list_ascii (Format.digits (h / 100)) ++ t) "infinity" = false
          /\ String.eqb
            (string_of_list_ascii (Format.digits (h / 100)) ++ t) "nan" = false).
  { intros t. rewrite E. cbn [string_of_list_ascii append String.eqb].
    rewrite (is_digit_other c "i" Hc eq_refl), (is_digit_other c "n" Hc eq_refl).
    repeat split. }
  destruct (Hne (String "." (string_of_list_ascii (Format.two_digits (h mod 100)))))
    as (-> & -> & ->).
  cbn [orb]. rewrite split_point_digits by apply digits_all.
  rewrite digits_value_digits.
  rewrite digits_value_two_digits by (apply N.mod_lt; discriminate).
  rewrite E at 1. cbn [string_of_list_ascii append].
  do 2 f_equal.
  change (Npos (Parse.pow10 _)) with 100%N.
  rewrite N.mul_comm. symmetry. apply N.div_mod. discriminate.
Qed.

Lemma float_of_str_signed s h :
  Parse.float_of_str (Parse.remove_commas (Format.sign s ++ Format.fixed2 h)) =
  Some (SF2Prim (Parse.ratio s h 100)).
Proof.
  pose proof (magnitude_plain s h) as Hm.
  destruct s; cbn [Format.sign append Parse.remove_commas Ascii.eqb Bool.eqb].
  - unfold Parse.float_of_str. cbn [Ascii.eqb Bool.eqb]. rewrite Hm. reflexivity.
  - change (EmptyString ++ Format.fixed2 h) with (Format.fixed2 h).
    rewrite remove_commas_fixed2 in Hm |- *.
    destruct (digits_head (h / 100)) as (c & l & E & Hc).
    rewrite E in Hm |- *. cbn [string_of_list_ascii append] in Hm |- *.
    unfold Parse.float_of_str.
    rewrite (is_digit_other c "-" Hc eq_refl), (is_digit_other c "+" Hc eq_refl).
    rewrite Hm. reflexivity.
Qed.

Lemma reading_back x :
  Parse.float_of_str (Parse.remove_commas (Format.comma_2f x)) =
  Some (Parse.reread x).
Proof.
  unfold Format.comma_2f, Parse.reread.
  pose proof (SF2Prim_Prim2SF x) as Hx.
  destruct (Prim2SF x) as [[]|[]| |s m e]; try (rewrite <- Hx; reflexivity).
  apply float_of_str_signed.
Qed.

(** X4. Reading a formatted metric back never fails, whatever the float:
    [float(f"{x:,.2f}".replace(',', ''))] is [x] itself when [x] is a zero,
    an infinity or a NaN, and otherwise [x] rounded to whole hundredths
    (ties to even) and these to the nearest float. *)
Theorem reading_back_never_fails x :
  Parse.float_of_str (Parse.remove_commas (Format.comma_2f x)) =
  Some (Parse.reread x) /\
  Parse.reread x =
  match Prim2SF x with
  | S754_finite s m e => SF2Prim (Parse.ratio s (Format.hundredths m e) 100)
  | _ => x
  end.
Proof. split; [apply reading_back|reflexivity]. Qed.

(** *** Amounts that survive the round trip *)

Module ExactFacts.

Import Bounds.
Local Open Scope Z_scope.

Lemma iter_shr_1_exact p : forall m,
  iter_pos shr_1 p
    {| shr_m := Zpos (Pos.iter xO m p); shr_r := false; shr_s := false |} =
  {| shr_m := Zpos m; shr_r := false; shr_s := false |}.
Proof.
  induction p as [p IH|p IH|]; intros m; cbn [iter_pos Pos.iter].
  - cbn [shr_1 orb]. now rewrite !IH.
  - now rewrite !IH.
  - reflexivity.
Qed.

Lemma digits2_shift m p :
  Zpos (digits2_pos (Pos.iter xO m p)) = Zpos (digits2_pos m) + Zpos p.
Proof.
  induction p as [|p IH] using Pos.peano_ind.
  - cbn. lia.
  - rewrite Pos.iter_succ. cbn [digits2_pos]. lia.
Qed.

Lemma shift_value m p : Zpos (Pos.iter xO m p) = Zpos m * 2 ^ Zpos p.
Proof.
  change (Pos.iter xO m p) with (shift_pos p m).
  rewrite Zpower.shift_pos_correct, Zpower.Zpower_pos_nat, Zpower.Zpower_nat_Z.
  rewrite positive_nat_Z. ring.
Qed.

(** Rounding a representable value written with a longer mantissa gives
    the float itself. *)
Lemma binary_round_aux_exact s m e j :
  bounded prec emax m e = true -> 0 <= j ->
  binary_round_aux prec emax s (Zpos m * 2 ^ j) (e - j) loc_Exact =
  S754_finite s m e.
Proof.
  unfold bounded, canonical_mantissa.
  rewrite andb_true_iff, Z.eqb_eq, Z.leb_le. intros [Hc He] Hj.
  assert (Hstep : shr_fexp prec emax (Zpos m * 2 ^ j) (e - j) loc_Exact =
                  ({| shr_m := Zpos m; shr_r := false; shr_s := false |}, e)).
  { destruct j as [|p|p]; [| |lia].
    - rewrite Z.mul_1_r, Z.sub_0_r. unfold shr_fexp. cbn [Zdigits2].
      rewrite Hc, Z.sub_diag. reflexivity.
    - rewrite <- shift_value. unfold shr_fexp. cbn [Zdigits2].
      rewrite digits2_shift.
      replace (Zpos (digits2_pos m) + Zpos p + (e - Zpos p))
        with (Zpos (digits2_pos m) + e) by lia.
      rewrite Hc. replace (e - (e - Zpos p)) with (Zpos p) by lia.
      cbn [shr shr_record_of_loc]. rewrite iter_shr_1_exact.
      f_equal. lia. }
  unfold binary_round_aux. rewrite Hstep.
  cbn [shr_m loc_of_shr_record round_nearest_even].
  unfold shr_fexp. cbn [Zdigits2]. rewrite Hc, Z.sub_diag.
  cbn [shr shr_record_of_loc shr_m].
  apply Z.leb_le in He. rewrite He. reflexivity.
Qed.

(** The quotient of [h] by a hundred, when it is the float [m * 2^e]. *)
Lemma ratio_exact s m e h :
  bounded prec emax m e = true ->
  Zpos h * 2 ^ Z.max 0 (- e) = 100 * Zpos m * 2 ^ Z.max 0 e ->
  Parse.ratio s (Npos h) 100 = S754_finite s m e.
Proof.
  intros Hb Hh. pose proof Hb as Hb'.
  unfold bounded, canonical_mantissa in Hb'.
  rewrite andb_true_iff, Z.eqb_eq, Z.leb_le, BoundsFacts.fexp64_eq in Hb'.
  destruct Hb' as [Hc He].
  unfold Parse.ratio, SF64div, SFdiv, SFdiv_core_binary.
  cbn [Zdigits2]. rewrite BoundsFacts.fexp64_eq.
  change (Zpos (digits2_pos 100)) with 7.
  set (dh := Zpos (digits2_pos h)).
  set (dm := Zpos (digits2_pos m)) in *.
  rewrite !Z.add_0_r, Z.sub_diag.
  set (e' := Z.min (Z.max (dh - 7 - 53) (-1074)) 0).
  assert (Hd : dh - 7 <= dm + e).
  { pose proof (BoundsFacts.digits2_lower h) as Hl.
    pose proof (BoundsFacts.digits2_upper m) as Hu.
    fold dh in Hl. fold dm in Hu.
    set (a := Z.max 0 (- e)) in *. set (b := Z.max 0 e) in *.
    assert (Ha : 0 <= a) by (unfold a; lia).
    assert (Hb0 : 0 <= b) by (unfold b; lia).
    assert (Hlt : 2 ^ (dh - 1 + a) < 2 ^ (7 + dm + b)).
    { rewrite !BoundsFacts.pow2_split by (unfold dh, dm; lia).
      pose proof (BoundsFacts.pow2_pos a Ha).
      pose proof (BoundsFacts.pow2_pos b Hb0).
      change (2 ^ 7) with 128.
      apply Z.le_lt_trans with (Zpos h * 2 ^ a); [nia|].
      rewrite Hh. nia. }
    apply Z.pow_lt_mono_r_iff in Hlt; [|lia|unfold dm; lia].
    unfold a, b in Hlt. lia. }
  assert (He' : e' <= e /\ e' <= 0) by (unfold e'; lia).
  set (j := e - e').
  assert (Hm' : match 0 - e' with
                | 0 => Zpos h
                | Zpos _ => Z.shiftl (Zpos h) (0 - e')
                | Zneg _ => 0
                end = 100 * (Zpos m * 2 ^ j)).
  { assert (E : match 0 - e' with
                | 0 => Zpos h
                | Zpos _ => Z.shiftl (Zpos h) (0 - e')
                | Zneg _ => 0
                end = Zpos h * 2 ^ (- e')).
    { replace (0 - e') with (- e') by lia.
      destruct (- e') as [|p|p] eqn:E; try lia.
      rewrite Z.shiftl_mul_pow2 by lia. reflexivity. }
    rewrite E. unfold j.
    destruct (Z.le_gt_cases 0 e) as [Hpos|Hneg].
    - rewrite Z.max_l, Z.max_r in Hh by lia.
      rewrite Z.pow_0_r, Z.mul_1_r in Hh. rewrite Hh.
      replace (e - e') with (e + - e') by lia.
      rewrite BoundsFacts.pow2_split by lia. ring.
    - rewrite Z.max_r, Z.max_l in Hh by lia.
      rewrite Z.pow_0_r, Z.mul_1_r in Hh.
      replace (- e') with (- e + (e - e')) by lia.
      rewrite BoundsFacts.pow2_split, Z.mul_assoc, Hh by lia. ring. }
  change (IntDef.Z.div_eucl ?a ?b) with (Z.div_eucl a b).
  change (IntDef.Z.shiftl ?a ?b) with (Z.shiftl a b).
  rewrite Hm'.
  assert (E : Z.div_eucl (100 * (Zpos m * 2 ^ j)) 100 = (Zpos m * 2 ^ j, 0)).
  { pose proof (Z.div_mul (Zpos m * 2 ^ j) 100 ltac:(lia)) as Hq.
    pose proof (Z.mod_mul (Zpos m * 2 ^ j) 100 ltac:(lia)) as Hr.
    rewrite Z.mul_comm in Hq, Hr.
    unfold Z.div, Z.modulo in Hq, Hr.
    destruct (Z.div_eucl (100 * (Zpos m * 2 ^ j)) 100) as [q r]. congruence. }
  rewrite E. change (new_location 100 0) with loc_Exact.
  rewrite xorb_false_r.
  replace e' with (e - j) by (unfold j; lia).
  apply binary_round_aux_exact; [exact Hb|unfold j; lia].
Qed.

End ExactFacts.

Lemma hundredths_exact m e :
  match e with
  | Zneg p => ((4 * Npos m) mod 2 ^ Npos p = 0)%N
  | _ => True
  end ->
  exists h,
    Format.hundredths m e = Npos h /\
    (Zpos h * 2 ^ Z.max 0 (- e) = 100 * Zpos m * 2 ^ Z.max 0 e)%Z.
Proof.
  destruct e as [|p|p]; intros H; unfold Format.hundredths.
  - exists (100 * m)%positive. split; [cbn; now rewrite Pos.mul_1_r|]. cbn. lia.
  - exists (100 * m * 2 ^ p)%positive. split.
    + change (Z.to_N (Zpos p)) with (Npos p). reflexivity.
    + rewrite Z.max_l, Z.max_r by lia. rewrite !Pos2Z.inj_mul, Pos2Z.inj_pow.
      cbn. lia.
  - assert (Hd : Npos (Pos.shiftl 1 (Npos p)) = (2 ^ Npos p)%N).
    { change (Npos (Pos.shiftl 1 (Npos p))) with (N.shiftl 1 (Npos p)).
      rewrite N.shiftl_1_l. reflexivity. }
    rewrite Hd.
    assert (Hpos : (2 ^ Npos p <> 0)%N) by (apply N.pow_nonzero; discriminate).
    assert (Hr : ((100 * Npos m) mod 2 ^ Npos p = 0)%N).
    { replace (100 * Npos m)%N with (25 * (4 * Npos m))%N by lia.
      rewrite N.Div0.mul_mod, H, N.mul_0_r. apply N.Div0.mod_0_l. }
    rewrite Hr.
    assert (Hc : (0 ?= 2 ^ Npos p)%N = Lt) by (apply N.compare_lt_iff; lia).
    change (2 * 0)%N with 0%N. rewrite Hc.
    pose proof (N.div_mod (100 * Npos m) (2 ^ Npos p) Hpos) as Hdm.
    rewrite Hr, N.add_0_r in Hdm.
    destruct ((100 * Npos m) / 2 ^ Npos p)%N as [|h] eqn:Eq; [lia|].
    exists h. split; [reflexivity|].
    rewrite Z.max_r, Z.max_l by lia. rewrite Z.pow_0_r, Z.mul_1_r.
    change (- Zneg p)%Z with (Zpos p).
    apply (f_equal Z.of_N) in Hdm.
    rewrite !N2Z.inj_mul, N2Z.inj_pow in Hdm.
    change (Z.of_N 100) with 100%Z in Hdm. change (Z.of_N 2) with 2%Z in Hdm.
    change (Z.of_N (Npos p)) with (Zpos p) in Hdm.
    change (Z.of_N (Npos m)) with (Zpos m) in Hdm.
    change (Z.of_N (Npos h)) with (Zpos h) in Hdm. lia.
Qed.

(** X5. An amount that is a whole number of quarters (every whole amount
    is) survives formatting and reading back exactly, and so does a zero, an
    infinity or a NaN. *)
Theorem whole_quarters_round_trip x :
  Parse.whole_quarters x = true ->
  Parse.float_of_str (Parse.remove_commas (Format.comma_2f x)) = Some x.
Proof.
  intros H. rewrite reading_back. f_equal.
  unfold Parse.reread, Parse.whole_quarters in *.
  pose proof (Prim2SF_valid x) as Hv. pose proof (SF2Prim_Prim2SF x) as Hx.
  destruct (Prim2SF x) as [s|s| |s m e]; try reflexivity.
  destruct (hundredths_exact m e) as (h & -> & Hh).
  { destruct e; try exact I. apply N.eqb_eq, H. }
  rewrite (ExactFacts.ratio_exact s m e h Hv Hh). exact Hx.
Qed.

Lemma whole_quarters_round_trip_witness :
  Parse.whole_quarters 1234567.75 = true /\
  Parse.float_of_str (Parse.remove_commas (Format.comma_2f 1234567.75)) =
  Some 1234567.75%float.
Proof.
  split; [reflexivity|].
  apply (whole_quarters_round_trip 1234567.75). reflexivity.
Defined.

(** ** Reading back against zero *)

Module StatusFacts.

Import Bounds ValidFacts.
Local Open Scope Z_scope.

(** The quotient of a positive integer by a hundred is never zero and
    always a canonical number or an infinity. *)
Lemma ratio_valid s h :
  Parse.ratio s (Npos h) 100 = S754_infinity s \/
  exists m e,
    Parse.ratio s (Npos h) 100 = S754_finite s m e /\
    bounded prec emax m e = true.
Proof.
  unfold Parse.ratio, SF64div, SFdiv, SFdiv_core_binary.
  rewrite xorb_false_r.
  change (Zdigits2 100 + 0) with 7. rewrite Z.add_0_r, BoundsFacts.fexp64_eq.
  change (0 - 0) with 0.
  set (d1 := Zdigits2 (Zpos h)).
  pose proof (digits_bounds (Zpos h) ltac:(lia)) as [Hl Hu]. fold d1 in Hl, Hu.
  pose proof (digits_pos (Zpos h) ltac:(lia)) as Hd. fold d1 in Hd.
  set (e' := Z.min (Z.max (d1 - 7 - 53) (-1074)) 0).
  set (m' := match 0 - e' with
             | 0 => Zpos h
             | Zpos _ => IntDef.Z.shiftl (Zpos h) (0 - e')
             | Zneg _ => 0
             end).
  assert (He' : e' = Z.min (d1 - 60) 0) by (unfold e'; lia).
  assert (Hm' : m' = Zpos h * 2 ^ (- e')).
  { unfold m'. destruct (0 - e') as [|n|n] eqn:En; try lia.
    - replace (- e') with 0 by lia. change (2 ^ 0) with 1. lia.
    - change (IntDef.Z.shiftl (Zpos h) (Zpos n)) with (Z.shiftl (Zpos h) (Zpos n)).
      rewrite Z.shiftl_mul_pow2 by lia. f_equal. f_equal. lia. }
  assert (Hbig : 2 ^ 59 <= m').
  { rewrite Hm'. destruct (Z.le_gt_cases d1 60) as [Hc|Hc].
    - replace (- e') with (60 - d1) by lia.
      replace 59 with ((d1 - 1) + (60 - d1)) by lia.
      rewrite BoundsFacts.pow2_split by lia.
      apply Z.mul_le_mono_nonneg_r; [|exact Hl].
      apply Z.lt_le_incl, BoundsFacts.pow2_pos. lia.
    - replace (- e') with 0 by lia. change (2 ^ 0) with 1. rewrite Z.mul_1_r.
      eapply Z.le_trans; [|exact Hl]. apply Z.pow_le_mono_r; lia. }
  change (IntDef.Z.div_eucl m' 100) with (Z.div_eucl m' 100).
  pose proof (Z.div_le_lower_bound m' 100 (2 ^ 52) ltac:(lia)
                ltac:(eapply Z.le_trans; [|exact Hbig]; vm_compute; discriminate)) as Hq.
  unfold Z.div in Hq.
  destruct (Z.div_eucl m' 100) as [q r]. cbn [fst] in Hq.
  assert (Hq0 : 0 < q).
  { eapply Z.lt_le_trans; [|exact Hq]. reflexivity. }
  pose proof (digits_le (2 ^ 52) q ltac:(reflexivity) Hq) as Hdq.
  change (Zdigits2 (2 ^ 52)) with 53 in Hdq.
  apply binary_round_aux_valid; [exact Hq0| |lia].
  rewrite BoundsFacts.fexp64_eq. lia.
Qed.

Lemma half_hundredth_eq : Prim2SF 0.005 = Parse.half_hundredth.
Proof. reflexivity. Qed.

(** The hundredths of [m * 2^-p] round to zero exactly up to half a
    hundredth. *)
Lemma hundredths_zero m p :
  (Format.hundredths m (Zneg p) =? 0)%N = (200 * Zpos m <=? 2 ^ Zpos p).
Proof.
  unfold Format.hundredths.
  assert (Hd : Npos (Pos.shiftl 1 (Npos p)) = (2 ^ Npos p)%N).
  { change (Npos (Pos.shiftl 1 (Npos p))) with (N.shiftl 1 (Npos p)).
    rewrite N.shiftl_1_l. reflexivity. }
  rewrite Hd.
  assert (Hz : 2 ^ Zpos p = Z.of_N (2 ^ Npos p)).
  { rewrite N2Z.inj_pow. reflexivity. }
  rewrite Hz.
  set (d := (2 ^ Npos p)%N).
  assert (Hpos : d <> 0%N) by (apply N.pow_nonzero; discriminate).
  set (n := (100 * Npos m)%N).
  assert (Hn : 200 * Zpos m = 2 * Z.of_N n).
  { unfold n. rewrite N2Z.inj_mul. change (Z.of_N 100) with 100.
    change (Z.of_N (Npos m)) with (Zpos m). lia. }
  rewrite Hn.
  pose proof (N.div_mod n d Hpos) as Hdm.
  pose proof (N.mod_lt n d Hpos) as Hlt.
  set (q := (n / d)%N) in *. set (r := (n mod d)%N) in *.
  assert (Hge : q <> 0%N -> (d <= n)%N).
  { intros Hq. rewrite Hdm. transitivity (d * q)%N; [|lia].
    rewrite <- (N.mul_1_r d) at 1. apply N.mul_le_mono_l. lia. }
  assert (Hrn : (r <= n)%N) by (rewrite Hdm; lia).
  assert (Hq0 : q = 0%N -> n = r) by (intros E; rewrite Hdm, E; lia).
  clearbody q r. clear Hdm Hn Hz Hd. clearbody n d.
  destruct (2 * r ?= d)%N eqn:Ec.
  - apply N.compare_eq_iff in Ec.
    destruct (N.eq_dec q 0) as [E|Hq].
    + specialize (Hq0 E). rewrite E. cbn [N.even N.eqb].
      symmetry. apply Z.leb_le. lia.
    + assert (Hs : ((if N.even q then q else N.succ q) =? 0)%N = false).
      { apply N.eqb_neq. destruct (N.even q); lia. }
      rewrite Hs. symmetry. apply Z.leb_gt. specialize (Hge Hq). lia.
  - apply -> N.compare_lt_iff in Ec.
    destruct (N.eq_dec q 0) as [E|Hq].
    + specialize (Hq0 E). rewrite E. cbn [N.eqb].
      symmetry. apply Z.leb_le. lia.
    + specialize (Hge Hq). apply N.eqb_neq in Hq. rewrite Hq.
      symmetry. apply Z.leb_gt. lia.
  - apply -> N.compare_gt_iff in Ec.
    assert (Hs : (N.succ q =? 0)%N = false) by (apply N.eqb_neq; lia).
    rewrite Hs. symmetry. apply Z.leb_gt.
    lia.
Qed.

(** A positive binary64 number is at least the float 0.005 exactly when
    its correctly rounded number of hundredths is not zero. *)
Lemma hundredths_threshold m e :
  bounded prec emax m e = true ->
  SFleb Parse.half_hundredth (S754_finite false m e) =
  negb (Format.hundredths m e =? 0)%N.
Proof.
  intros Hb. pose proof Hb as Hb'.
  unfold bounded, canonical_mantissa in Hb'.
  apply andb_true_iff in Hb'. destruct Hb' as [Hc _].
  apply Z.eqb_eq in Hc. rewrite BoundsFacts.fexp64_eq in Hc.
  pose proof (BoundsFacts.digits2_lower m) as Hl.
  pose proof (BoundsFacts.digits2_upper m) as Hu.
  set (d := Zpos (digits2_pos m)) in *. clearbody d.
  destruct e as [|p|p].
  - reflexivity.
  - cbv [SFleb SFcompare Parse.half_hundredth Z.compare].
    assert (Hn : (Format.hundredths m (Zpos p) =? 0)%N = false).
    { apply N.eqb_neq. unfold Format.hundredths.
      change (Z.to_N (Zpos p)) with (Npos p).
      assert (2 ^ Npos p <> 0)%N by (apply N.pow_nonzero; discriminate). lia. }
    rewrite Hn. reflexivity.
  - rewrite hundredths_zero.
    unfold SFleb, SFcompare, Parse.half_hundredth.
    destruct (Z.compare_spec (-60) (Zneg p)) as [E|E|E].
    + (* the binade of 0.005 *)
      assert (Hp : Zpos p = 60) by lia. rewrite Hp.
      change (2 ^ 60) with 1152921504606846976.
      rewrite Pos.compare_cont_spec. cbn [Pos.switch_Eq].
      clear Hl Hu Hc Hb.
      destruct (Pos.compare_spec 5764607523034235 m) as [E'|E'|E'].
      * subst m. reflexivity.
      * symmetry. apply negb_true_iff, Z.leb_gt.
        apply Pos2Z.pos_lt_pos in E'. clear - E'. lia.
      * symmetry. apply negb_false_iff, Z.leb_le.
        apply Pos2Z.pos_lt_pos in E'. clear - E'. lia.
    + (* above it: the mantissa has all its 53 bits *)
      symmetry. apply negb_true_iff, Z.leb_gt.
      assert (Hd : d = 53) by lia. rewrite Hd in Hl.
      change (2 ^ (53 - 1)) with 4503599627370496 in Hl.
      assert (Hle : 2 ^ Zpos p <= 2 ^ 59) by (apply Z.pow_le_mono_r; lia).
      change (2 ^ 59) with 576460752303423488 in Hle. lia.
    + (* below it *)
      symmetry. apply negb_false_iff, Z.leb_le.
      assert (Hd : d <= 53) by lia.
      assert (Hu' : Zpos m < 2 ^ 53).
      { eapply Z.lt_le_trans; [exact Hu|]. apply Z.pow_le_mono_r; lia. }
      change (2 ^ 53) with 9007199254740992 in Hu'.
      assert (Hle : 2 ^ 61 <= 2 ^ Zpos p) by (apply Z.pow_le_mono_r; lia).
      change (2 ^ 61) with 2305843009213693952 in Hle. lia.
Qed.

(** Reading back what the formatting printed gives a number above zero
    exactly when the number formatted is at least the float 0.005. *)
Lemma reread_positive x :
  (0 <? Parse.reread x)%float = (0.005 <=? x)%float.
Proof.
  rewrite ltb_spec, leb_spec, half_hundredth_eq.
  unfold Parse.reread.
  pose proof (Prim2SF_valid x) as Hv.
  destruct (Prim2SF x) as [s|s| |s m e] eqn:Ex.
  - rewrite Ex. destruct s; reflexivity.
  - rewrite Ex. destruct s; reflexivity.
  - rewrite Ex. reflexivity.
  - cbn [valid_binary] in Hv.
    destruct s.
    + (* a negative number reads back negative or as a zero *)
      transitivity false; [|reflexivity].
      unfold Parse.ratio at 1.
      destruct (Format.hundredths m e) as [|h].
      * rewrite Prim2SF_SF2Prim by reflexivity. reflexivity.
      * destruct (ratio_valid true h) as [E|(m' & e' & E & Hb')];
          unfold Parse.ratio in E; rewrite E.
        -- rewrite Prim2SF_SF2Prim by reflexivity. reflexivity.
        -- rewrite Prim2SF_SF2Prim by exact Hb'. reflexivity.
    + rewrite (hundredths_threshold m e Hv).
      destruct (Format.hundredths m e) as [|h].
      * unfold Parse.ratio. rewrite Prim2SF_SF2Prim by reflexivity. reflexivity.
      * destruct (ratio_valid false h) as [E|(m' & e' & E & Hb')]; rewrite E.
        -- rewrite Prim2SF_SF2Prim by reflexivity. reflexivity.
        -- rewrite Prim2SF_SF2Prim by exact Hb'. reflexivity.
Qed.

End StatusFacts.

(** ** The notebook: figures, report and handler *)

Lemma float_of_formatted results key x w :
  get key results = Some (Format.comma_2f x) ->
  Notebook.float_of results key w = (w, Notebook.Done (Parse.reread x)).
Proof.
  intros H. unfold Notebook.float_of, Notebook.item_of, Notebook.seq.
  rewrite H. cbn [Notebook.ret]. rewrite reading_back. reflexivity.
Qed.

(** The unguarded division of line 175, and the conversion of line 242. *)
Lemma generate_graphs_zero inputs m w :
  ((development_costs inputs + maintenance_costs inputs
    + training_costs inputs + licensing_costs inputs + cloud_costs inputs
    + support_ops_costs inputs =? 0)%float = true ->
   Notebook.generate_graphs inputs (format_metrics m) w =
   (w, Notebook.Raised
         (Notebook.Core (ZeroDivisionError "float division by zero")))) /\
  ((development_costs inputs + maintenance_costs inputs
    + training_costs inputs + licensing_costs inputs + cloud_costs inputs
    + support_ops_costs inputs =? 0)%float = false ->
   forall p, Py.as_float (people_removed inputs) = Ok p ->
   exists graphs,
     List.length graphs = 14%nat /\
     Notebook.generate_graphs inputs (format_metrics m) w =
     ({| Notebook.shown := Notebook.shown w ++ graphs;
         Notebook.files := Notebook.files w;
         Notebook.clock := Notebook.clock w;
         Notebook.temp_dir := Notebook.temp_dir w |},
      Notebook.Done tt)).
Proof.
  unfold Notebook.generate_graphs.
  change (Py.add (Py.add (Py.add (Py.add (Py.add (development_costs inputs)
                                                 (maintenance_costs inputs))
                                         (training_costs inputs))
                                 (licensing_costs inputs))
                         (cloud_costs inputs))
                 (support_ops_costs inputs))
    with (development_costs inputs + maintenance_costs inputs
          + training_costs inputs + licensing_costs inputs
          + cloud_costs inputs + support_ops_costs inputs)%float.
  unfold Notebook.comprehension, Notebook.years, Notebook.of_core, Py.truediv.
  split; intros Hz; rewrite Hz.
  - reflexivity.
  - intros p Hp. unfold Py.mul_number. rewrite Hp. cbn [bind].
    unfold Notebook.draw.
    unfold Notebook.seq, Notebook.ret, Notebook.display.
    cbn [Notebook.shown Notebook.files Notebook.clock Notebook.temp_dir].
    rewrite
      !(float_of_formatted (format_metrics m) "Total Benefits"
                           (total_benefits m) _ eq_refl),
      !(float_of_formatted (format_metrics m) "Total Costs"
                           (total_costs m) _ eq_refl),
      !(float_of_formatted (format_metrics m) "People Cost Reduction"
                           (people_cost_reduction m) _ eq_refl),
      !(float_of_formatted (format_metrics m) "Time Saved Value"
                           (time_saved_value m) _ eq_refl),
      !(float_of_formatted (format_metrics m) "Net Benefits"
                           (net_benefits m) _ eq_refl).
    cbn [Notebook.shown Notebook.files Notebook.clock Notebook.temp_dir].
    rewrite <- !app_assoc. cbn [app].
    eexists. split; [|reflexivity]. reflexivity.
Qed.

(** X6. [generate_graphs] divides by the total of the six costs without
    the guard of the aggregator: when that total is zero it raises
    [ZeroDivisionError] before it has drawn anything.  Otherwise, on the
    record of any metrics, it shows the first five figures, each followed
    by its explanation, the third and fourth built from the metrics read
    back from their formatted strings; then it multiplies [people_removed]
    by the salary again: when that conversion fails it raises
    [OverflowError] with the five figures shown, and when it succeeds it
    shows the last two figures and raises nothing. *)
Theorem generate_graphs_outcome inputs m w :
  let revenue :=
    (revenue_increase inputs + cost_savings inputs
     + productivity_gains inputs)%float in
  let costs :=
    (development_costs inputs + maintenance_costs inputs
     + training_costs inputs + licensing_costs inputs + cloud_costs inputs
     + support_ops_costs inputs)%float in
  let base := ((revenue - costs) / costs * 100)%float in
  let net := Parse.reread (net_benefits m) in
  let first_five :=
    [ Notebook.Figure
        {| Notebook.kind := Notebook.Bar;
           Notebook.title := "Revenue Components";
           Notebook.xs :=
             Notebook.Categories
               ["Revenue Increase"; "Cost Savings"; "Productivity Gains"];
           Notebook.ys :=
             [revenue_increase inputs; cost_savings inputs;
              productivity_gains inputs] |};
      Notebook.Html (Notebook.GraphExplanation 1);
      Notebook.Figure
        {| Notebook.kind := Notebook.Bar;
           Notebook.title := "Cost Breakdown";
           Notebook.xs :=
             Notebook.Categories
               ["Development"; "Maintenance"; "Training"; "Licensing";
                "Cloud"; "Support & Ops"];
           Notebook.ys :=
             [development_costs inputs; maintenance_costs inputs;
              training_costs inputs; licensing_costs inputs;
              cloud_costs inputs; support_ops_costs inputs] |};
      Notebook.Html (Notebook.GraphExplanation 2);
      Notebook.Figure
        {| Notebook.kind := Notebook.Bar;
           Notebook.title := "Total Benefits vs Total Costs";
           Notebook.xs :=
             Notebook.Categories ["Total Benefits"; "Total Costs"];
           Notebook.ys :=
             [Parse.reread (total_benefits m);
              Parse.reread (total_costs m)] |};
      Notebook.Html (Notebook.GraphExplanation 3);
      Notebook.Figure
        {| Notebook.kind := Notebook.Bar;
           Notebook.title := "Cost Reduction vs Time Saved Value";
           Notebook.xs :=
             Notebook.Categories
               ["People Cost Reduction"; "Time Saved Value"];
           Notebook.ys :=
             [Parse.reread (people_cost_reduction m);
              Parse.reread (time_saved_value m)] |};
      Notebook.Html (Notebook.GraphExplanation 4);
      Notebook.Figure
        {| Notebook.kind := Notebook.Line;
           Notebook.title := "ROI Trend Over 3 Years";
           Notebook.xs := Notebook.Numbers [1; 2; 3]%Z;
           Notebook.ys :=
             [(base + 10)%float; (base + 20)%float; (base + 30)%float] |};
      Notebook.Html (Notebook.GraphExplanation 5) ] in
  let last_two p :=
    [ Notebook.Figure
        {| Notebook.kind := Notebook.Line;
           Notebook.title := "Cumulative Savings Over Time";
           Notebook.xs :=
             Notebook.Categories ["Year 1"; "Year 2"; "Year 3"];
           Notebook.ys :=
             [cost_savings inputs;
              (cost_savings inputs + productivity_gains inputs)%float;
              (cost_savings inputs + productivity_gains inputs
               + p * average_salary inputs)%float] |};
      Notebook.Html (Notebook.GraphExplanation 6);
      Notebook.Figure
        {| Notebook.kind := Notebook.Line;
           Notebook.title := "Net Benefits Over Time";
           Notebook.xs := Notebook.Numbers [1; 2; 3]%Z;
           Notebook.ys :=
             [(net * (1 + 1 * 0.05))%float; (net * (1 + 2 * 0.05))%float;
              (net * (1 + 3 * 0.05))%float] |};
      Notebook.Html (Notebook.GraphExplanation 7) ] in
  ((costs =? 0)%float = true ->
   Notebook.generate_graphs inputs (format_metrics m) w =
   (w, Notebook.Raised
         (Notebook.Core (ZeroDivisionError "float division by zero")))) /\
  ((costs =? 0)%float = false ->
   Notebook.generate_graphs inputs (format_metrics m) w =
   match Py.as_float (people_removed inputs) with
   | Ok p =>
       ({| Notebook.shown := Notebook.shown w ++ first_five ++ last_two p;
           Notebook.files := Notebook.files w;
           Notebook.clock := Notebook.clock w;
           Notebook.temp_dir := Notebook.temp_dir w |},
        Notebook.Done tt)
   | Raise e =>
       ({| Notebook.shown := Notebook.shown w ++ first_five;
           Notebook.files := Notebook.files w;
           Notebook.clock := Notebook.clock w;
           Notebook.temp_dir := Notebook.temp_dir w |},
        Notebook.Raised (Notebook.Core e))
   end).
Proof.
  intros revenue costs base net first_five last_two.
  unfold Notebook.generate_graphs.
  change (Py.add (Py.add (Py.add (Py.add (Py.add (development_costs inputs)
                                                 (maintenance_costs inputs))
                                         (training_costs inputs))
                                 (licensing_costs inputs))
                         (cloud_costs inputs))
                 (support_ops_costs inputs)) with costs.
  change (Py.add (Py.add (revenue_increase inputs) (cost_savings inputs))
                 (productivity_gains inputs)) with revenue.
  unfold Notebook.comprehension, Notebook.years, Notebook.of_core, Py.truediv.
  split; intros Hz; rewrite Hz.
  - reflexivity.
  - unfold Py.mul_number.
    destruct (Py.as_float (people_removed inputs)) as [p|e]; cbn [bind];
      unfold Notebook.draw;
      unfold Notebook.seq, Notebook.ret, Notebook.raise, Notebook.display;
      cbn [Notebook.shown Notebook.files Notebook.clock Notebook.temp_dir];
      rewrite
        ?(float_of_formatted (format_metrics m) "Total Benefits"
                             (total_benefits m) _ eq_refl),
        ?(float_of_formatted (format_metrics m) "Total Costs"
                             (total_costs m) _ eq_refl),
        ?(float_of_formatted (format_metrics m) "People Cost Reduction"
                             (people_cost_reduction m) _ eq_refl),
        ?(float_of_formatted (format_metrics m) "Time Saved Value"
                             (time_saved_value m) _ eq_refl),
        ?(float_of_formatted (format_metrics m) "Net Benefits"
                             (net_benefits m) _ eq_refl);
      cbn [Notebook.shown Notebook.files Notebook.clock Notebook.temp_dir];
      rewrite <- !app_assoc; cbn [app]; reflexivity.
Qed.

(** The report of a record of metrics, as [generate_summary] fills it in. *)
Lemma generate_summary_formatted inputs m w :
  let r :=
    {| Notebook.report_total_benefits := Format.comma_2f (total_benefits m);
       Notebook.report_total_costs := Format.comma_2f (total_costs m);
       Notebook.report_net_benefits := Format.comma_2f (net_benefits m);
       Notebook.report_roi := Format.comma_2f (roi m);
       Notebook.report_roi_status :=
         if (0 <? Parse.reread (roi m))%float then "positive" else "negative";
       Notebook.report_people_cost_reduction :=
         Format.comma_2f (people_cost_reduction m);
       Notebook.report_time_saved_value := Format.comma_2f (time_saved_value m);
       Notebook.generated_on := Notebook.clock w |} in
  let path := Notebook.report_path (Notebook.temp_dir w) in
  Notebook.generate_summary inputs (format_metrics m) w =
  ({| Notebook.shown :=
        Notebook.shown w ++
        [ Notebook.Html (Notebook.SummaryReport r);
          Notebook.Html (Notebook.DownloadLink path) ];
      Notebook.files :=
        (path, r)
        :: filter (fun f => negb (String.eqb (fst f) path)) (Notebook.files w);
      Notebook.clock := Notebook.clock w;
      Notebook.temp_dir := Notebook.temp_dir w |},
   Notebook.Done tt).
Proof.
  intros r path. unfold Notebook.generate_summary.
  unfold Notebook.seq at 1.
  rewrite (float_of_formatted (format_metrics m) "ROI (%)" (roi m) _ eq_refl).
  unfold Notebook.seq, Notebook.item_of, Notebook.ret, Notebook.now,
    Notebook.gettempdir, Notebook.display, Notebook.write_file.
  cbn [get find fst snd String.eqb Ascii.eqb Bool.eqb option_map format_metrics
       Notebook.shown Notebook.files Notebook.clock Notebook.temp_dir].
  rewrite <- app_assoc. reflexivity.
Qed.

(** X11. The status of the report is read back from the formatted ROI, so
    it follows the two decimals printed, not the ROI itself: on the record
    of any metrics the report says "positive" exactly when the ROI is at
    least 0.005, and "negative" otherwise, which includes an ROI of zero,
    a NaN, and every positive ROI that prints as "0.00". *)
Theorem summary_status_threshold inputs m w :
  exists r w',
    Notebook.generate_summary inputs (format_metrics m) w =
      (w', Notebook.Done tt) /\
    Notebook.read_file (Notebook.report_path (Notebook.temp_dir w)) w' =
      Some r /\
    Notebook.report_roi r = Format.comma_2f (roi m) /\
    Notebook.report_roi_status r =
      (if (0.005 <=? roi m)%float then "positive" else "negative").
Proof.
  eexists. eexists. split; [apply generate_summary_formatted|].
  unfold Notebook.read_file. cbn [Notebook.files find fst].
  rewrite String.eqb_refl. cbn [option_map snd].
  split; [reflexivity|]. split; [reflexivity|].
  cbn [Notebook.report_roi_status].
  rewrite StatusFacts.reread_positive. reflexivity.
Qed.



(** X7. An input the validation rejects: the handler catches the
    [ValueError], shows the one line "Error: " followed by its message, and
    returns; it shows no table, no figure and no report, and writes no
    file. *)
Theorem handler_shows_validation_error i w :
  (exists n, In n (fields i) /\ negative_number n = true) ->
  exists msg,
    calculate_roi_agentiq i = Raise (ValueError msg) /\
    Notebook.on_calculate_button_clicked i w =
    ({| Notebook.shown := Notebook.shown w ++ [Notebook.Text ("Error: " ++ msg)];
        Notebook.files := Notebook.files w;
        Notebook.clock := Notebook.clock w;
        Notebook.temp_dir := Notebook.temp_dir w |},
     Notebook.Done tt).
Proof.
  intros (x & Hx & Hneg).
  destruct (validate i) as [[]|e] eqn:Hv.
  - rewrite validate_ok_iff in Hv. rewrite (Hv x Hx) in Hneg. discriminate.
  - destruct (validate_raises i e Hv) as [[msg ->] _].
    exists msg. pose proof (validate_raise_calculate i _ Hv) as Hc.
    split; [exact Hc|].
    unfold Notebook.on_calculate_button_clicked, Notebook.try_except_ValueError.
    unfold Notebook.seq at 1. rewrite Hc. reflexivity.
Qed.

Lemma handler_shows_validation_error_witness :
  (exists n, In n (fields (with_hourly_rate (-5) scenario_B))
             /\ negative_number n = true) /\
  exists msg,
    calculate_roi_agentiq (with_hourly_rate (-5) scenario_B) =
    Raise (ValueError msg) /\
    Notebook.on_calculate_button_clicked (with_hourly_rate (-5) scenario_B)
                                         Notebook.empty_world =
    ({| Notebook.shown := [Notebook.Text ("Error: " ++ msg)];
        Notebook.files := []; Notebook.clock := "2025-01-01 00:00:00";
        Notebook.temp_dir := "/tmp" |},
     Notebook.Done tt).
Proof.
  assert (H : exists n, In n (fields (with_hourly_rate (-5) scenario_B))
                        /\ negative_number n = true).
  { exists (Float (-5)). split; [cbn; tauto|reflexivity]. }
  split; [exact H|].
  exact (handler_shows_validation_error _ Notebook.empty_world H).
Defined.

(** X8. An input the validation accepts, whose [people_removed] converts
    and whose six costs sum to zero: the
    aggregator returns, with an ROI of "0.00", and the handler shows the
    table; then [generate_graphs] raises [ZeroDivisionError], which the
    handler does not catch: no figure and no report are shown and no file
    is written. *)
Theorem handler_zero_costs_escapes i p w :
  (forall n, In n (fields i) -> negative_number n = false) ->
  Py.as_float (people_removed i) = Ok p ->
  (development_costs i + maintenance_costs i + training_costs i
   + licensing_costs i + cloud_costs i + support_ops_costs i =? 0)%float
  = true ->
  exists out,
    calculate_roi_agentiq i = Ok out /\
    get "ROI (%)" out = Some "0.00" /\
    Notebook.on_calculate_button_clicked i w =
    ({| Notebook.shown := Notebook.shown w ++ [Notebook.Table out];
        Notebook.files := Notebook.files w;
        Notebook.clock := Notebook.clock w;
        Notebook.temp_dir := Notebook.temp_dir w |},
     Notebook.Raised
       (Notebook.Core (ZeroDivisionError "float division by zero"))).
Proof.
  intros H Hp Hz. apply validate_ok_iff in H.
  destruct (roi_metrics_valid i p H Hp)
    as (m & Hm & _ & _ & _ & Htc & _ & Hroi).
  pose proof (calculate_of_metrics i m Hm) as Hc.
  exists (format_metrics m). split; [exact Hc|].
  unfold Py.add in Htc. rewrite <- Htc in Hz.
  unfold Py.ne in Hroi. rewrite Hz in Hroi. cbn [negb] in Hroi.
  split.
  - unfold get, format_metrics.
    cbn [find fst snd String.eqb Ascii.eqb Bool.eqb option_map].
    rewrite Hroi. reflexivity.
  - unfold Notebook.on_calculate_button_clicked, Notebook.try_except_ValueError.
    unfold Notebook.seq at 1. rewrite Hc. cbn [Notebook.of_core Notebook.ret].
    unfold Notebook.seq at 1. unfold Notebook.display at 1.
    unfold Notebook.seq at 1.
    rewrite Htc in Hz.
    rewrite (proj1 (generate_graphs_zero i m _) Hz). reflexivity.
Qed.

Lemma handler_zero_costs_escapes_witness :
  (forall n, In n (fields scenario_A) -> negative_number n = false) /\
  Py.as_float (people_removed scenario_A) = Ok 0%float /\
  ((0 + 0 + 0 + 0 + 0 + 0 =? 0)%float = true) /\
  exists out,
    calculate_roi_agentiq scenario_A = Ok out /\
    get "ROI (%)" out = Some "0.00" /\
    Notebook.on_calculate_button_clicked scenario_A Notebook.empty_world =
    ({| Notebook.shown := [Notebook.Table out];
        Notebook.files := []; Notebook.clock := "2025-01-01 00:00:00";
        Notebook.temp_dir := "/tmp" |},
     Notebook.Raised
       (Notebook.Core (ZeroDivisionError "float division by zero"))).
Proof.
  assert (H : forall n, In n (fields scenario_A) -> negative_number n = false).
  { intros x Hx. cbn in Hx.
    repeat (destruct Hx as [<-|Hx]; [reflexivity|]). destruct Hx. }
  split; [exact H|]. split; [reflexivity|]. split; [reflexivity|].
  exact (handler_zero_costs_escapes scenario_A 0 Notebook.empty_world H
           eq_refl eq_refl).
Defined.



(** X10. An input the validation accepts whose [people_removed] is an
    [int] beyond the range of binary64: the aggregator raises
    [OverflowError], which the handler does not catch; nothing is shown and
    no file is written. *)
Theorem handler_overflow_escapes i w :
  (forall n, In n (fields i) -> negative_number n = false) ->
  in_float_range (people_removed i) = false ->
  calculate_roi_agentiq i =
    Raise (OverflowError "int too large to convert to float") /\
  Notebook.on_calculate_button_clicked i w =
  (w, Notebook.Raised
        (Notebook.Core (OverflowError "int too large to convert to float"))).
Proof.
  intros H Hr. apply validate_ok_iff in H.
  apply as_float_raises_iff in Hr. destruct Hr as [e He].
  destruct (as_float_raises _ _ He) as [-> _].
  pose proof (conversion_fails_calculate i _ H He) as Hc.
  split; [exact Hc|].
  unfold Notebook.on_calculate_button_clicked, Notebook.try_except_ValueError.
  unfold Notebook.seq at 1. rewrite Hc. reflexivity.
Qed.

Lemma handler_overflow_escapes_witness :
  (forall n, In n (fields (with_people_removed beyond_binary64 scenario_B)) ->
             negative_number n = false) /\
  in_float_range beyond_binary64 = false /\
  Notebook.on_calculate_button_clicked
    (with_people_removed beyond_binary64 scenario_B) Notebook.empty_world =
  (Notebook.empty_world,
   Notebook.Raised
     (Notebook.Core (OverflowError "int too large to convert to float"))).
Proof.
  assert (H : forall n,
             In n (fields (with_people_removed beyond_binary64 scenario_B)) ->
             negative_number n = false).
  { intros x Hx. cbn in Hx.
    repeat (destruct Hx as [<-|Hx]; [reflexivity|]). destruct Hx. }
  split; [exact H|]. split; [reflexivity|].
  exact (proj2 (handler_overflow_escapes _ Notebook.empty_world H eq_refl)).
Defined.

Lemma roi_sign_follows_net_benefits_witness :
  (forall n, In n (fields costs_only) -> negative_number n = false) /\
  Py.as_float (people_removed costs_only) = Ok 0%float /\
  exists m,
    roi_metrics costs_only = Ok m /\
    (roi m <? 0)%float = true /\ (net_benefits m <? 0)%float = true.
Proof.
  assert (H : forall n, In n (fields costs_only) -> negative_number n = false).
  { intros x Hx. cbn in Hx.
    repeat (destruct Hx as [<-|Hx]; [reflexivity|]). destruct Hx. }
  split; [exact H|]. split; [reflexivity|].
  destruct (roi_sign_follows_net_benefits costs_only 0 H eq_refl)
    as (m & Hm & _ & Hn & _).
  exists m. split; [exact Hm|].
  assert (Hr : (roi m <? 0)%float = true).
  { vm_compute in Hm. injection Hm as <-. reflexivity. }
  split; [exact Hr|exact (Hn Hr)].
Defined.
